(** * OpenStack metrics analysis and forecasting: a shallow embedding

    The development follows [analyze_metrics.py] (class [MetricsAnalyzer])
    and [forecast_usage.py] (class [UsageForecaster]).

    Numbers.  The pandas columns the two classes compute with are float64.
    They are modelled by [float64]: the three exceptional values of IEEE 754
    that pandas and numpy let through ([NaN], [+inf], [-inf]) and the finite
    values, carried as exact rationals.  Division by zero, [fillna], the
    comparisons with [NaN] and the propagation of infinities follow IEEE 754;
    rounding of finite results to 53 bits (and so the overflow of a finite
    result, and the digits [round] reports at a half-way case) and the sign
    of zero are abstracted away: a finite result is the exact rational.  The
    raw counters of a sample (vcpus, MB, GB, instance counts) are integers,
    as the collector writes them; the sums of these int64 columns wrap.

    Data frames are lists of rows in row order; a Python dict keyed by node
    is a [gmap string _]. *)

From Stdlib Require Import ZArith QArith Qround Qabs Lia Lqa.
From stdpp Require Import base option list strings gmap sorting.

Local Open Scope Z_scope.

(** ** IEEE 754 values with exact finite part *)

Module Float64.

Inductive float64 : Type :=
  | NaN
  | PInf
  | NInf
  | Fin (q : Q).

Definition Qltb (a b : Q) : bool :=
  match (a ?= b)%Q with Lt => true | _ => false end.

Definition Qleb (a b : Q) : bool :=
  match (a ?= b)%Q with Gt => false | _ => true end.

Definition Qeqb (a b : Q) : bool :=
  match (a ?= b)%Q with Eq => true | _ => false end.

Definition of_Z (z : Z) : float64 := Fin (inject_Z z).

Definition isna (x : float64) : bool :=
  match x with NaN => true | _ => false end.

Definition is_finite (x : float64) : bool :=
  match x with Fin _ => true | _ => false end.

(** Sign of a value: [Eq] for zero (and for [NaN], which the callers handle
    first). *)
Definition fsign (x : float64) : comparison :=
  match x with
  | NaN => Eq
  | PInf => Gt
  | NInf => Lt
  | Fin q => (q ?= 0)%Q
  end.

Definition sign_mul (a b : comparison) : comparison :=
  match a, b with
  | Eq, _ | _, Eq => Eq
  | Gt, Gt | Lt, Lt => Gt
  | Gt, Lt | Lt, Gt => Lt
  end.

(** An infinity of the given sign; the sign [Eq] stands for the invalid
    operations [0 * inf] and [0 / 0], whose result is [NaN]. *)
Definition inf_of_sign (c : comparison) : float64 :=
  match c with Gt => PInf | Lt => NInf | Eq => NaN end.

Definition fneg (x : float64) : float64 :=
  match x with
  | NaN => NaN
  | PInf => NInf
  | NInf => PInf
  | Fin q => Fin (- q)
  end.

Definition fabs (x : float64) : float64 :=
  match x with
  | NaN => NaN
  | PInf | NInf => PInf
  | Fin q => Fin (Qabs q)
  end.

Definition fadd (x y : float64) : float64 :=
  match x, y with
  | NaN, _ | _, NaN => NaN
  | PInf, NInf | NInf, PInf => NaN
  | PInf, _ | _, PInf => PInf
  | NInf, _ | _, NInf => NInf
  | Fin a, Fin b => Fin (a + b)
  end.

Definition fsub (x y : float64) : float64 := fadd x (fneg y).

Definition fmul (x y : float64) : float64 :=
  match x, y with
  | NaN, _ | _, NaN => NaN
  | Fin a, Fin b => Fin (a * b)
  | _, _ => inf_of_sign (sign_mul (fsign x) (fsign y))
  end.

(** Division as numpy does it on float64 arrays: no exception, [x / 0] is an
    infinity of the sign of [x], [0 / 0] is [NaN]. *)
Definition fdiv (x y : float64) : float64 :=
  match x, y with
  | NaN, _ | _, NaN => NaN
  | Fin a, Fin b =>
      if Qeqb b 0 then inf_of_sign (a ?= 0)%Q else Fin (a / b)
  | Fin _, _ => Fin 0
  | PInf, Fin b => if Qltb b 0 then NInf else PInf
  | NInf, Fin b => if Qltb b 0 then PInf else NInf
  | _, _ => NaN
  end.

(** Comparisons: every comparison with [NaN] is false. *)
Definition flt (x y : float64) : bool :=
  match x, y with
  | NaN, _ | _, NaN => false
  | _, NInf => false
  | NInf, _ => true
  | PInf, _ => false
  | _, PInf => true
  | Fin a, Fin b => Qltb a b
  end.

Definition fle (x y : float64) : bool :=
  match x, y with
  | NaN, _ | _, NaN => false
  | NInf, _ => true
  | _, NInf => false
  | _, PInf => true
  | PInf, _ => false
  | Fin a, Fin b => Qleb a b
  end.

Definition fgt (x y : float64) : bool := flt y x.
Definition fge (x y : float64) : bool := fle y x.

(** [Series.fillna(v)]: only [NaN] is replaced, infinities are kept. *)
Definition fillna (v : float64) (x : float64) : float64 :=
  match x with NaN => v | _ => x end.

(** Round half to even to an integer, then [round(x, 2)] as numpy does it:
    scale by 100, round to the nearest integer, scale back. *)
Definition rint (q : Q) : Z :=
  let f := Qfloor q in
  match (q - inject_Z f ?= 1 # 2)%Q with
  | Lt => f
  | Gt => f + 1
  | Eq => if Z.even f then f else f + 1
  end.

Definition round2 (x : float64) : float64 :=
  match x with
  | Fin q => Fin (inject_Z (rint (q * 100)) / 100)
  | _ => x
  end.

End Float64.
Export Float64.

(** ** The pandas and numpy operations the two classes call *)

Module Pandas.

Definition of_nat (n : nat) : float64 := of_Z (Z.of_nat n).

Definition dropna (l : list float64) : list float64 :=
  List.filter (fun x => negb (isna x)) l.

(** [numpy.sum] of an array: nothing is skipped. *)
Definition np_sum (l : list float64) : float64 :=
  foldr fadd (Fin 0) l.

(** [Series.mean()] and [Series.max()]: missing values are skipped; the mean
    and the maximum of no value are [NaN]. *)
Definition mean (l : list float64) : float64 :=
  match dropna l with
  | [] => NaN
  | v => fdiv (np_sum v) (of_nat (length v))
  end.

Definition fmax2 (a b : float64) : float64 := if flt a b then b else a.

Definition max (l : list float64) : float64 :=
  match dropna l with
  | [] => NaN
  | x :: v => foldl fmax2 x v
  end.

(** [Series.unique()]: the distinct values in order of first appearance. *)
Definition unique `{EqDecision A} (l : list A) : list A :=
  reverse (remove_dups (reverse l)).

(** The keys of [DataFrame.groupby(key)]: distinct and sorted. *)
Definition string_le (a b : string) : Prop := String.leb a b = true.

#[global] Instance string_le_dec : RelDecision string_le.
Proof. intros a b; unfold string_le; apply _. Defined.

Definition groupby_keys (l : list string) : list string :=
  merge_sort string_le (unique l).

(** [GroupBy.last()] on a float column: the last value that is not missing. *)
Definition last_valid (l : list float64) : float64 :=
  default NaN (last (dropna l)).

(** The windows of [Series.rolling(window, min_periods=1)]: the window of the
    row at position [i] holds the rows [i - window + 1 .. i] that exist. *)
Definition rolling {A} (window : nat) (l : list A) : list (list A) :=
  List.map (fun i => drop (S i - window) (take (S i) l)) (seq 0 (length l)).

(** Before it computes, [Series.rolling] turns the infinities of the series
    into missing values. *)
Definition inf_to_nan (x : float64) : float64 :=
  match x with PInf | NInf => NaN | _ => x end.

Definition arange (n : nat) : list float64 := List.map of_nat (seq 0 n).

(** [numpy.polyfit(x, y, 1)[0]]: the slope of the least-squares line through
    the points [(x_i, y_i)], by the normal equations. *)
Definition polyfit1_slope (x y : list float64) : float64 :=
  let n := of_nat (length x) in
  let sx := np_sum x in
  let sy := np_sum y in
  let sxy := np_sum (zip_with fmul x y) in
  let sxx := np_sum (List.map (fun a => fmul a a) x) in
  fdiv (fsub (fmul n sxy) (fmul sx sy)) (fsub (fmul n sxx) (fmul sx sx)).

Section Sqrt.
(** [numpy.sqrt] on the non-negative rationals.  It has no exact rational
    counterpart: the development is parametric in it, and the one fact it
    uses, where it uses one, is [sqrt 0 == 0]. *)
Variable sqrt : Q -> Q.

Definition fsqrt (x : float64) : float64 :=
  match x with
  | NaN | NInf => NaN
  | PInf => PInf
  | Fin q => if Qltb q 0 then NaN else Fin (sqrt q)
  end.

(** [Series.std()]: sample standard deviation (ddof = 1) of the values
    that are not missing; [NaN] for fewer than two of them. *)
Definition std (l : list float64) : float64 :=
  let v := dropna l in
  if (length v <? 2)%nat then NaN
  else
    let m := mean v in
    let d := List.map (fun x => fmul (fsub x m) (fsub x m)) v in
    fsqrt (fdiv (np_sum d) (of_nat (length v - 1))).
End Sqrt.

End Pandas.

(** ** The sample stream *)

(** One row of [metrics.csv].  The three utilization columns are optional in
    the file: [Frame] records which of them the file has. *)
Record Sample : Type := mkSample {
  timestamp : Z;                 (* seconds *)
  node : string;
  vcpus_used : Z;
  vcpus_total : Z;
  memory_used_mb : Z;
  memory_total_mb : Z;
  disk_used_gb : Z;
  disk_total_gb : Z;
  instances : Z;
  total_instance_vcpus : Z;
  total_instance_memory_mb : Z;
  cpu_utilization : float64;
  memory_utilization : float64;
  disk_utilization : float64
}.

Record Frame : Type := mkFrame {
  has_cpu_utilization : bool;
  has_memory_utilization : bool;
  has_disk_utilization : bool;
  rows : list Sample
}.

Inductive Metric : Type :=
  | CpuUtilization
  | MemoryUtilization
  | DiskUtilization.

#[global] Instance Metric_eq_dec : EqDecision Metric.
Proof. solve_decision. Defined.

Definition column (m : Metric) (s : Sample) : float64 :=
  match m with
  | CpuUtilization => cpu_utilization s
  | MemoryUtilization => memory_utilization s
  | DiskUtilization => disk_utilization s
  end.

(** [(used / total * 100).fillna(0)] on integer columns. *)
Definition utilization (used total : Z) : float64 :=
  fillna (Fin 0) (fmul (fdiv (of_Z used) (of_Z total)) (Fin 100)).

(** The three guarded assignments shared by [MetricsAnalyzer.
    calculate_utilization_metrics] and [UsageForecaster.load_metrics]. *)
Definition with_utilization (df : Frame) (s : Sample) : Sample :=
  mkSample (timestamp s) (node s)
    (vcpus_used s) (vcpus_total s)
    (memory_used_mb s) (memory_total_mb s)
    (disk_used_gb s) (disk_total_gb s)
    (instances s) (total_instance_vcpus s) (total_instance_memory_mb s)
    (if has_cpu_utilization df then cpu_utilization s
     else utilization (vcpus_used s) (vcpus_total s))
    (if has_memory_utilization df then memory_utilization s
     else utilization (memory_used_mb s) (memory_total_mb s))
    (if has_disk_utilization df then disk_utilization s
     else utilization (disk_used_gb s) (disk_total_gb s)).

(** [collect_metrics.py], lines 182-184: the collector's own ratio, with its
    explicit guard on the total. *)
Definition collector_utilization (used total : Z) : float64 :=
  if (0 <? total)%Z then fmul (fdiv (of_Z used) (of_Z total)) (Fin 100)
  else Fin 0.

(** ** analyze_metrics.py *)

Module MetricsAnalyzer.

(** A row after [calculate_utilization_metrics]: the sample with its three
    utilization columns, and the four derived columns. *)
Record Derived : Type := mkDerived {
  sample :> Sample;
  cpu_efficiency : float64;
  memory_efficiency : float64;
  cpu_waste : float64;
  memory_waste : float64
}.

Definition derive (df : Frame) (s : Sample) : Derived :=
  let s' := with_utilization df s in
  let cpu_eff := utilization (total_instance_vcpus s) (vcpus_total s) in
  let mem_eff := utilization (total_instance_memory_mb s) (memory_total_mb s) in
  mkDerived s' cpu_eff mem_eff
    (fsub (cpu_utilization s') cpu_eff)
    (fsub (memory_utilization s') mem_eff).

Definition calculate_utilization_metrics (df : Frame) : list Derived :=
  List.map (derive df) (rows df).

(** The rows of one node, in row order: [df[df['node'] == n]]. *)
Definition of_node (n : string) (df : list Derived) : list Derived :=
  filter (fun r : Derived => node r = n) df.

(** *** generate_node_summary *)

Inductive Risk : Type := High | Medium | Low.

#[global] Instance Risk_eq_dec : EqDecision Risk.
Proof. solve_decision. Defined.

(** [lambda x: 'High' if x > 80 else 'Medium' if x > 60 else 'Low'] *)
Definition risk_of (x : float64) : Risk :=
  if fgt x (Fin 80) then High
  else if fgt x (Fin 60) then Medium
  else Low.

(** The lambda of the overall risk, on the three risks of a row. *)
Definition overall_of (cpu mem disk : Risk) : Risk :=
  if existsb (fun risk => bool_decide (risk = High)) [cpu; mem; disk] then High
  else if existsb (fun risk => bool_decide (risk = Medium)) [cpu; mem; disk]
  then Medium
  else Low.

(** A row of the node summary: the key, the three rounded mean utilizations
    the risks are computed from, and the four risk columns.  (The other
    aggregates of the table feed no later column.) *)
Record NodeSummary : Type := mkNodeSummary {
  ns_node : string;
  cpu_utilization_mean : float64;
  memory_utilization_mean : float64;
  disk_utilization_mean : float64;
  cpu_risk : Risk;
  memory_risk : Risk;
  disk_risk : Risk;
  overall_risk : Risk
}.

Definition summary_row (df : list Derived) (n : string) : NodeSummary :=
  let g := of_node n df in
  let agg (m : Metric) := round2 (Pandas.mean (List.map (fun r : Derived => column m r) g)) in
  let cpu := agg CpuUtilization in
  let mem := agg MemoryUtilization in
  let disk := agg DiskUtilization in
  mkNodeSummary n cpu mem disk
    (risk_of cpu) (risk_of mem) (risk_of disk)
    (overall_of (risk_of cpu) (risk_of mem) (risk_of disk)).

Definition generate_node_summary (df : list Derived) : list NodeSummary :=
  List.map (summary_row df)
    (Pandas.groupby_keys (List.map (fun r : Derived => node r) df)).

(** *** generate_time_series_analysis *)

(** The hourly bucket of a timestamp in seconds. *)
Definition hour (t : Z) : Z := t / 3600.

(** A row of [df_hourly]: the node, the bucket and the bucket means of the
    three utilization columns ([NaN] for a bucket without samples). *)
Record Hourly : Type := mkHourly {
  h_node : string;
  h_hour : Z;
  h_cpu : float64;
  h_memory : float64;
  h_disk : float64
}.

Definition h_column (m : Metric) (b : Hourly) : float64 :=
  match m with
  | CpuUtilization => h_cpu b
  | MemoryUtilization => h_memory b
  | DiskUtilization => h_disk b
  end.

(** The buckets of [resample('H')] for one group: every hour from the first
    to the last hour of the group, with or without samples. *)
Definition bucket_hours (g : list Derived) : list Z :=
  match List.map (fun r : Derived => hour (timestamp r)) g with
  | [] => []
  | h :: hs =>
      let lo := foldr Z.min h hs in
      let hi := foldr Z.max h hs in
      seqZ lo (hi - lo + 1)
  end.

Definition bucket (n : string) (g : list Derived) (h : Z) : Hourly :=
  let inb := filter (fun r : Derived => hour (timestamp r) = h) g in
  let agg (m : Metric) := Pandas.mean (List.map (fun r : Derived => column m r) inb) in
  mkHourly n h (agg CpuUtilization) (agg MemoryUtilization) (agg DiskUtilization).

Definition resample_hourly (df : list Derived) : list Hourly :=
  flat_map (fun n => List.map (bucket n (of_node n df)) (bucket_hours (of_node n df)))
    (Pandas.groupby_keys (List.map (fun r : Derived => node r) df)).

Record Trend : Type := mkTrend {
  cpu_trend : float64;
  memory_trend : float64;
  disk_trend : float64;
  data_points : nat
}.

Definition trend_of (node_data : list Hourly) : Trend :=
  let x := Pandas.arange (length node_data) in
  let fit (m : Metric) :=
    Pandas.polyfit1_slope x (List.map (fun b => fillna (Fin 0) (h_column m b)) node_data) in
  mkTrend (fit CpuUtilization) (fit MemoryUtilization) (fit DiskUtilization)
    (length node_data).

Definition generate_time_series_analysis (df : list Derived)
  : gmap string Trend :=
  let df_hourly := resample_hourly df in
  foldl (fun (trends : gmap string Trend) (n : string) =>
           let node_data :=
             filter (fun b => h_node b = n) df_hourly in
           if (1 <? length node_data)%nat
           then <[n := trend_of node_data]> trends
           else trends)
        ∅ (Pandas.unique (List.map (fun r : Derived => node r) df)).

(** *** generate_capacity_analysis *)

(** One row of [df.groupby('node').last()]: per column, the last value of the
    group that is not missing.  The integer columns have no missing value, so
    they are those of the last row of the group. *)
Definition latest_row (g : list Derived) : option Derived :=
  match last g with
  | None => None
  | Some r =>
  let col (f : Derived -> float64) := Pandas.last_valid (List.map f g) in
  Some (mkDerived
          (mkSample (timestamp r) (node r)
             (vcpus_used r) (vcpus_total r)
             (memory_used_mb r) (memory_total_mb r)
             (disk_used_gb r) (disk_total_gb r)
             (instances r) (total_instance_vcpus r)
             (total_instance_memory_mb r)
             (col (fun d => cpu_utilization d))
             (col (fun d => memory_utilization d))
             (col (fun d => disk_utilization d)))
          (col cpu_efficiency) (col memory_efficiency)
          (col cpu_waste) (col memory_waste))
  end.

Definition latest_data (df : list Derived) : list Derived :=
  omap (fun n => latest_row (of_node n df))
    (Pandas.groupby_keys (List.map (fun r : Derived => node r) df)).

Definition sumZ (l : list Z) : Z := foldr Z.add 0 l.

(** The columns are int64: their sums and differences wrap around. *)
Definition wrap_int64 (z : Z) : Z := (z + 2 ^ 63) mod 2 ^ 64 - 2 ^ 63.

Definition sum_int64 (l : list Z) : Z := wrap_int64 (sumZ l).

(** [used / total * 100] on the integer sums (numpy scalars: no exception on
    a zero total). *)
Definition percent (used total : Z) : float64 :=
  fmul (fdiv (of_Z used) (of_Z total)) (Fin 100).

Record Cluster : Type := mkCluster {
  total_vcpus : Z;
  used_vcpus : Z;
  available_vcpus : Z;
  cluster_cpu_utilization : float64;
  total_memory_gb : float64;
  used_memory_gb : float64;
  available_memory_gb : float64;
  cluster_memory_utilization : float64;
  total_disk_gb : Z;
  used_disk_gb : Z;
  available_disk_gb : Z;
  cluster_disk_utilization : float64;
  total_instances : Z;
  total_nodes : nat
}.

Definition cluster_of (latest : list Derived) : Cluster :=
  let total f := sum_int64 (List.map f latest) in
  let total_vcpus := total (fun r : Derived => vcpus_total r) in
  let total_memory := total (fun r : Derived => memory_total_mb r) in
  let total_disk := total (fun r : Derived => disk_total_gb r) in
  let used_vcpus := total (fun r : Derived => vcpus_used r) in
  let used_memory := total (fun r : Derived => memory_used_mb r) in
  let used_disk := total (fun r : Derived => disk_used_gb r) in
  mkCluster
    total_vcpus used_vcpus (wrap_int64 (total_vcpus - used_vcpus))
    (round2 (percent used_vcpus total_vcpus))
    (round2 (fdiv (of_Z total_memory) (Fin 1024)))
    (round2 (fdiv (of_Z used_memory) (Fin 1024)))
    (round2 (fdiv (of_Z (wrap_int64 (total_memory - used_memory))) (Fin 1024)))
    (round2 (percent used_memory total_memory))
    total_disk used_disk (wrap_int64 (total_disk - used_disk))
    (round2 (percent used_disk total_disk))
    (total (fun r : Derived => instances r))
    (length latest).

Definition cpu_high : string :=
  "Consider adding more CPU capacity or migrating instances".
Definition cpu_low : string :=
  "CPU capacity is underutilized - consider consolidating instances".
Definition memory_high : string :=
  "Consider adding more memory or migrating instances".
Definition memory_low : string :=
  "Memory capacity is underutilized - consider consolidating instances".
Definition disk_high : string :=
  "Consider adding more disk storage or cleaning up unused data".
Definition disk_low : string :=
  "Disk capacity is underutilized".
Definition well_balanced : string :=
  "Node capacity is well-balanced".

(** One [if ... > 80 / elif ... < 20] statement: what it appends. *)
Definition threshold_check (u : float64) (high low : string) : list string :=
  if fgt u (Fin 80) then [high]
  else if flt u (Fin 20) then [low]
  else [].

Record NodeRecommendation : Type := mkNodeRecommendation {
  rec_node : string;
  rec_cpu_utilization : float64;
  rec_memory_utilization : float64;
  rec_disk_utilization : float64;
  recommendations : list string
}.

Definition recommend (r : Derived) : NodeRecommendation :=
  let recs := [] in
  let recs := recs ++ threshold_check (cpu_utilization r) cpu_high cpu_low in
  let recs := recs ++ threshold_check (memory_utilization r) memory_high memory_low in
  let recs := recs ++ threshold_check (disk_utilization r) disk_high disk_low in
  let recs := match recs with [] => recs ++ [well_balanced] | _ => recs end in
  mkNodeRecommendation (node r)
    (round2 (cpu_utilization r)) (round2 (memory_utilization r))
    (round2 (disk_utilization r)) recs.

(** The two parts of the result, on a frame that has rows.  (On a frame
    without rows the sums are Python integers, the first ratio raises
    [ZeroDivisionError] and the method returns its empty dict: there is no
    cluster record then, and no recommendation.) *)
Definition generate_capacity_analysis (df : list Derived)
  : Cluster * list NodeRecommendation :=
  let latest := latest_data df in
  (cluster_of latest, List.map recommend latest).

(** *** generate_anomaly_detection *)

Inductive Severity : Type := SevHigh | SevMedium.

Record Anomaly : Type := mkAnomaly {
  a_timestamp : Z;
  a_node : string;
  a_metric : Metric;
  a_value : float64;
  expected_range : float64 * float64;
  severity : Severity
}.

Section Anomalies.
Variable sqrt : Q -> Q.

(** A row of [node_data] with the rolling mean and the rolling standard
    deviation of one metric. *)
Definition with_rolling (m : Metric) (node_data : list Derived)
  : list (Derived * (float64 * float64)) :=
  let window := Nat.min 24 (length node_data) in
  let series := List.map (fun r : Derived => column m r) node_data in
  let windows :=
    Pandas.rolling window (List.map Pandas.inf_to_nan series) in
  let rolling_mean := List.map Pandas.mean windows in
  let rolling_std := List.map (Pandas.std sqrt) windows in
  zip node_data (zip rolling_mean rolling_std).

Definition outside_band (m : Metric) (row : Derived * (float64 * float64))
  : bool :=
  let '(r, (rolling_mean, rolling_std)) := row in
  fgt (column m r) (fadd rolling_mean (fmul (Fin 2) rolling_std))
  || flt (column m r) (fsub rolling_mean (fmul (Fin 2) rolling_std)).

Definition anomaly_of (n : string) (m : Metric)
  (row : Derived * (float64 * float64)) : Anomaly :=
  let '(r, (rolling_mean, rolling_std)) := row in
  mkAnomaly (timestamp r) n m (round2 (column m r))
    (round2 (fsub rolling_mean (fmul (Fin 2) rolling_std)),
     round2 (fadd rolling_mean (fmul (Fin 2) rolling_std)))
    (if fgt (fabs (fsub (column m r) rolling_mean)) (fmul (Fin 3) rolling_std)
     then SevHigh else SevMedium).

Definition metric_anomalies (n : string) (m : Metric)
  (node_data : list Derived) : list Anomaly :=
  List.map (anomaly_of n m)
    (List.filter (outside_band m) (with_rolling m node_data)).

Definition generate_anomaly_detection (df : list Derived) : list Anomaly :=
  flat_map (fun n =>
              let node_data := of_node n df in
              metric_anomalies n CpuUtilization node_data
              ++ metric_anomalies n MemoryUtilization node_data)
    (Pandas.unique (List.map (fun r : Derived => node r) df)).
End Anomalies.

End MetricsAnalyzer.

(** ** forecast_usage.py *)

Module UsageForecaster.

(** [load_metrics]: the rows of the file with the utilization columns it
    lacks filled in. *)
Definition load_metrics (df : Frame) : list Sample :=
  List.map (with_utilization df) (rows df).

(** A row of the frame Prophet returns, restricted to the four columns
    [forecast_metric] keeps. *)
Record Prediction : Type := mkPrediction {
  ds : Z;
  yhat : float64;
  yhat_lower : float64;
  yhat_upper : float64
}.

(** The three accuracy columns; they are set together, or not at all. *)
Record Accuracy : Type := mkAccuracy {
  mae : float64;
  mape : float64;
  rmse : float64
}.

Record ForecastRow : Type := mkForecastRow {
  f_timestamp : Z;
  forecast : float64;
  lower_bound : float64;
  upper_bound : float64;
  f_node : string;
  f_metric : Metric;
  created_at : Z;
  accuracy : option Accuracy
}.

Inductive Severity : Type := Critical | High | Medium.

#[global] Instance Severity_eq_dec : EqDecision Severity.
Proof. solve_decision. Defined.

(** A recommendation.  Its message is the f-string of the severity, the
    metric and the predicted value; the value is kept, not the text. *)
Record Recommendation : Type := mkRecommendation {
  r_node : string;
  r_metric : Metric;
  r_severity : Severity;
  recommended_action : string;
  forecast_period : string;
  max_predicted_value : option float64;
  avg_predicted_value : option float64
}.

(** [prophet_data.merge(forecast_data[...isin(prophet_data['ds'])],
    left_on='ds', right_on='timestamp', how='left')], as pairs
    [(y, forecast)]: a left row without a match keeps a missing forecast. *)
Definition merge_left (prophet_data : list (Z * float64))
  (forecast_data : list Prediction) : list (float64 * float64) :=
  flat_map (fun row : Z * float64 =>
              match filter (fun p => ds p = row.1) forecast_data with
              | [] => [(row.2, NaN)]
              | matches => List.map (fun p => (row.2, yhat p)) matches
              end)
    prophet_data.

(** [np.mean(np.abs((y - forecast) / y)) * 100]: the mean is the one of the
    pandas Series the expression builds, so missing terms are skipped. *)
Definition mape_of (historical_data : list (float64 * float64)) : float64 :=
  fmul (Pandas.mean
          (List.map (fun h : float64 * float64 =>
                       fabs (fdiv (fsub h.1 h.2) h.1))
             historical_data))
       (Fin 100).

Definition mae_of (historical_data : list (float64 * float64)) : float64 :=
  Pandas.mean
    (List.map (fun h : float64 * float64 => fabs (fsub h.1 h.2)) historical_data).

Section Forecasting.
(** The outside world of the forecaster: numpy's square root, the clock,
    and Prophet.  The clock is read once in every call of [forecast_metric],
    after the fit of its pair: [now n m] is that reading.
    [create_prophet_model] and the fit-and-predict step yield [None] where
    the Python raises (the callers catch every exception). *)
Variable sqrt : Q -> Q.
Variable now : string -> Metric -> Z.
Variable Model : Type.
Variable create_prophet_model : option Model.
Variable fit_predict :
  Model -> list (Z * float64) -> nat -> Z -> option (list Prediction).

Definition rmse_of (historical_data : list (float64 * float64)) : float64 :=
  Pandas.fsqrt sqrt
    (Pandas.mean
       (List.map (fun h : float64 * float64 =>
                    fmul (fsub h.1 h.2) (fsub h.1 h.2))
          historical_data)).

Definition node_rows (n : string) (df : list Sample) : list Sample :=
  filter (fun r => node r = n) df.

(** The [(ds, y)] rows of a pair after [dropna()]. *)
Definition prophet_rows (df : list Sample) (n : string) (m : Metric)
  : list (Z * float64) :=
  List.filter (fun row : Z * float64 => negb (isna row.2))
    (List.map (fun r => (timestamp r, column m r)) (node_rows n df)).

(** The rows that survive the 3-sigma filter. *)
Definition without_outliers (prophet_data : list (Z * float64))
  : list (Z * float64) :=
  let mean_val := Pandas.mean (List.map snd prophet_data) in
  let std_val := Pandas.std sqrt (List.map snd prophet_data) in
  List.filter (fun row : Z * float64 =>
                 fge row.2 (fsub mean_val (fmul (Fin 3) std_val))
                 && fle row.2 (fadd mean_val (fmul (Fin 3) std_val)))
    prophet_data.

Definition prepare_prophet_data (df : list Sample) (n : string) (m : Metric)
  : option (list (Z * float64)) :=
  let node_data := node_rows n df in
  if (length node_data <? 10)%nat then None
  else
    let prophet_data := without_outliers (prophet_rows df n m) in
    if (length prophet_data <? 5)%nat then None
    else Some prophet_data.

Definition forecast_metric (df : list Sample) (n : string) (m : Metric)
  (periods : nat) (freq : Z) : option (list ForecastRow) :=
  match prepare_prophet_data df n m with
  | None => None
  | Some prophet_data =>
      match create_prophet_model with
      | None => None
      | Some model =>
          match fit_predict model prophet_data periods freq with
          | None => None
          | Some predictions =>
              let in_sample :=
                filter (fun p => ds p ∈ List.map fst prophet_data)
                  predictions in
              let historical_data := merge_left prophet_data in_sample in
              let acc :=
                if (0 <? length historical_data)%nat
                then Some (mkAccuracy (mae_of historical_data)
                             (mape_of historical_data)
                             (rmse_of historical_data))
                else None in
              Some (List.map
                      (fun p => mkForecastRow (ds p) (yhat p) (yhat_lower p)
                                  (yhat_upper p) n m (now n m) acc)
                      predictions)
          end
      end
  end.

Definition metrics : list Metric :=
  [CpuUtilization; MemoryUtilization; DiskUtilization].

(** The list [all_forecasts] after the two loops. *)
Definition all_forecasts (df : list Sample) (periods : nat) (freq : Z)
  : list (list ForecastRow) :=
  flat_map (fun n =>
              flat_map (fun m =>
                          match forecast_metric df n m periods freq with
                          | Some forecast => [forecast]
                          | None => []
                          end)
                metrics)
    (Pandas.unique (List.map node df)).

Definition generate_all_forecasts (df : list Sample) (periods : nat)
  (freq : Z) : option (list ForecastRow) :=
  match all_forecasts df periods freq with
  | [] => None
  | fs => Some (concat fs)
  end.
End Forecasting.

(** *** generate_capacity_recommendations *)

Definition pair_rows (n : string) (m : Metric) (fs : list ForecastRow)
  : list ForecastRow :=
  filter (fun f => f_metric f = m)
    (filter (fun f => f_node f = n) fs).

(** The [if / elif / elif] of one (node, metric) pair. *)
Definition recommend (n : string) (m : Metric)
  (metric_forecasts : list ForecastRow) : list Recommendation :=
  let max_forecast := Pandas.max (List.map forecast metric_forecasts) in
  let avg_forecast := Pandas.mean (List.map forecast metric_forecasts) in
  if fgt max_forecast (Fin 90) then
    [mkRecommendation n m Critical
       "Add capacity or migrate instances immediately" "24 hours"
       (Some max_forecast) None]
  else if fgt max_forecast (Fin 80) then
    [mkRecommendation n m High
       "Plan capacity increase within 1-2 days" "24 hours"
       (Some max_forecast) None]
  else if fgt avg_forecast (Fin 70) then
    [mkRecommendation n m Medium
       "Monitor trends and plan for future capacity needs" "24 hours"
       None (Some avg_forecast)]
  else [].

Definition generate_capacity_recommendations
  (forecasts : option (list ForecastRow)) (current_time : Z)
  : list Recommendation :=
  match forecasts with
  | None | Some [] => []
  | Some fs =>
      let future_forecasts :=
        filter (fun f => current_time < f_timestamp f) fs in
      flat_map (fun n =>
                  let node_forecasts :=
                    filter (fun f => f_node f = n)
                      future_forecasts in
                  flat_map (fun m =>
                              recommend n m
                                (filter (fun f => f_metric f = m)
                                   node_forecasts))
                    (Pandas.unique (List.map f_metric node_forecasts)))
        (Pandas.unique (List.map f_node future_forecasts))
  end.

End UsageForecaster.

(** * Properties *)

(** ** forecast_dashboard.py: what it does with the forecaster's output *)

Module ForecastDashboard.

(** [max(0, 100 - mape)] of [api_forecast_accuracy]: Python's [max] keeps its
    first argument unless the second compares greater. *)
Definition accuracy_score (mape : float64) : float64 :=
  let score := fsub (Fin 100) mape in
  if fgt score (Fin 0) then score else Fin 0.

(** The three lists by severity, of [api_capacity_recommendations] and of
    [UsageForecaster.create_forecast_summary] alike. *)
Definition by_severity (recs : list UsageForecaster.Recommendation)
  : list UsageForecaster.Recommendation
    * list UsageForecaster.Recommendation
    * list UsageForecaster.Recommendation :=
  (filter (fun r => UsageForecaster.r_severity r = UsageForecaster.Critical) recs,
   filter (fun r => UsageForecaster.r_severity r = UsageForecaster.High) recs,
   filter (fun r => UsageForecaster.r_severity r = UsageForecaster.Medium) recs).

End ForecastDashboard.

(** ** Concrete inputs *)

Module Inputs.
Import MetricsAnalyzer.

(** A hypervisor that reports no vCPU capacity while four vCPUs are in use;
    the file has no utilization column. *)
Definition zero_total_sample : Sample :=
  mkSample 0 "node-a" 4 0 2048 8192 10 100 1 4 2048 NaN NaN NaN.

Definition zero_total_frame : Frame :=
  mkFrame false false false [zero_total_sample].

(** The two nodes of the end-to-end scenario: [node-a] at 7 of 8 vCPUs,
    [node-b] at 2 of 8, one sample each. *)
Definition two_nodes_frame : Frame :=
  mkFrame false false false
    [ mkSample 0 "node-a" 7 8 4096 8192 50 100 3 6 4096 NaN NaN NaN;
      mkSample 0 "node-b" 2 8 1024 8192 10 100 1 2 1024 NaN NaN NaN ].

Definition two_nodes : list Derived :=
  calculate_utilization_metrics two_nodes_frame.

(** [node-a] sampled twice, one hour apart, and [node-b] once, in time
    order. *)
Definition history_frame : Frame :=
  mkFrame false false false
    [ mkSample 0 "node-a" 3 8 4096 8192 50 100 3 6 4096 NaN NaN NaN;
      mkSample 60 "node-b" 2 8 1024 8192 10 100 1 2 1024 NaN NaN NaN;
      mkSample 3600 "node-a" 7 8 6144 8192 60 100 3 6 4096 NaN NaN NaN ].

Definition history : list Derived :=
  calculate_utilization_metrics history_frame.



(** Two historical points, the first with a zero actual and a forecast of 5. *)
Definition zero_actual_history : list (float64 * float64) :=
  [ (Fin 0, Fin 5); (Fin 50, Fin 45) ].

(** Twelve hourly samples of [node-a] at 4 of 8 vCPUs. *)
Definition steady_frame : Frame :=
  mkFrame false false false
    (List.map (fun i => mkSample (3600 * Z.of_nat i) "node-a" 4 8 4096 8192
                          50 100 3 6 4096 NaN NaN NaN)
       (seq 0 12)).

(** A stand-in for Prophet that predicts every historical point exactly and
    nothing beyond, and a stand-in for the square root that is exact at 0. *)
Definition echo_predict (_ : unit) (data : list (Z * float64)) (_ : nat)
  (_ : Z) : option (list UsageForecaster.Prediction) :=
  Some (List.map (fun row : Z * float64 =>
                    UsageForecaster.mkPrediction row.1 row.2 row.2 row.2)
          data).

(** Twelve hourly samples of an idle [node-a] (no vCPU in use), and a
    stand-in for Prophet that predicts 5 at every historical point. *)
Definition idle_frame : Frame :=
  mkFrame false false false
    (List.map (fun i => mkSample (3600 * Z.of_nat i) "node-a" 0 8 4096 8192
                          50 100 0 0 0 NaN NaN NaN)
       (seq 0 12)).

Definition five_predict (_ : unit) (data : list (Z * float64)) (_ : nat)
  (_ : Z) : option (list UsageForecaster.Prediction) :=
  Some (List.map (fun row : Z * float64 =>
                    UsageForecaster.mkPrediction row.1 (Fin 5) (Fin 4) (Fin 6))
          data).

Definition sqrt_stub (q : Q) : Q := q.

(** [node-a] sampled at 10% in hour 0 and at 40% in hour 3, nothing in
    between; [node-b] sampled once. *)
Definition gap_frame : Frame :=
  mkFrame false false false
    [ mkSample 0 "node-a" 1 10 1024 10240 10 100 1 1 1024 NaN NaN NaN;
      mkSample 600 "node-b" 2 8 1024 8192 10 100 1 2 1024 NaN NaN NaN;
      mkSample 10800 "node-a" 4 10 4096 10240 40 100 1 1 1024 NaN NaN NaN ].

Definition gap : list Derived := calculate_utilization_metrics gap_frame.

Definition steady : list Derived := calculate_utilization_metrics steady_frame.

(** A file as the collector writes it: the utilization columns are there. *)
Definition collector_frame : Frame :=
  mkFrame true true true
    [ mkSample 0 "node-a" 7 8 4096 8192 50 100 3 6 4096
        (Fin (875 # 10)) (Fin 50) (Fin 50);
      mkSample 0 "node-b" 2 8 1024 8192 10 100 1 2 1024
        (Fin 25) (Fin (125 # 10)) (Fin 10) ].

End Inputs.

Import MetricsAnalyzer.

(** ** Order of the risk tiers, as the data model states it *)

Definition risk_rank (r : Risk) : nat :=
  match r with
  | Low => 0
  | Medium => 1
  | High => 2
  end.

(** ** Vocabulary of the statements *)

(** A per-resource threshold check fires when it appends a recommendation. *)
Definition fired (u : float64) : bool :=
  fgt u (Fin 80) || flt u (Fin 20).



(** An integer that fits an int64. *)
Definition in_int64 (z : Z) : Prop := - 2 ^ 63 <= z < 2 ^ 63.


(** The forecast rows of a (node, metric) pair strictly after the current
    time: the horizon the Recommendation Generator looks at. *)
Definition horizon (forecasts : option (list UsageForecaster.ForecastRow))
  (current_time : Z) (n : string) (m : Metric)
  : list UsageForecaster.ForecastRow :=
  match forecasts with
  | None => []
  | Some fs =>
      UsageForecaster.pair_rows n m
        (filter (fun f => current_time < UsageForecaster.f_timestamp f) fs)
  end.

(** The recommendations emitted for a (node, metric) pair. *)
Definition emitted_for (n : string) (m : Metric)
  (recs : list UsageForecaster.Recommendation)
  : list UsageForecaster.Recommendation :=
  filter (fun r => UsageForecaster.r_metric r = m)
    (filter (fun r => UsageForecaster.r_node r = n) recs).

(** The historical points [(y, forecast)] hold numbers only. *)
Definition finite_points (historical_data : list (float64 * float64)) : Prop :=
  Forall (fun h : float64 * float64 => exists y f, h = (Fin y, Fin f))
    historical_data.

(** The term [abs((y - forecast) / y)] of one historical point. *)
Definition ape (h : float64 * float64) : float64 :=
  fabs (fdiv (fsub h.1 h.2) h.1).

(** The resampled hourly series of a node: its rows of [df_hourly]. *)
Definition node_buckets (df : list Derived) (n : string) : list Hourly :=
  filter (fun b => h_node b = n) (resample_hourly df).

Definition trend_column (m : Metric) (t : Trend) : float64 :=
  match m with
  | CpuUtilization => cpu_trend t
  | MemoryUtilization => memory_trend t
  | DiskUtilization => disk_trend t
  end.

(** The series a trend is fitted on: the bucket means with 0 in place of the
    missing ones. *)
Definition zero_filled (m : Metric) (series : list Hourly) : list float64 :=
  List.map (fun b => fillna (Fin 0) (h_column m b)) series.

(** A number equal to the rational [c]. *)
Definition fin_eq (c : Q) (x : float64) : Prop :=
  exists q, x = Fin q /\ (q == c)%Q.

(** A series of numbers that are all equal: its variance is zero. *)
Definition constant_series (l : list float64) : Prop :=
  exists c, Forall (fin_eq c) l.

(** A value that is a non-negative number or [+inf]. *)
Definition nonneg_or_inf (x : float64) : Prop :=
  x = PInf \/ exists q, x = Fin q /\ (0 <= q)%Q.

(** ** Comparisons *)

Lemma Qltb_lt (a b : Q) : Qltb a b = true <-> (a < b)%Q.
Proof.
  unfold Qltb. rewrite Qlt_alt. destruct (a ?= b)%Q; split; congruence.
Qed.

Lemma Qleb_le (a b : Q) : Qleb a b = true <-> (a <= b)%Q.
Proof.
  unfold Qleb. rewrite Qle_alt. destruct (a ?= b)%Q; split; congruence.
Qed.

Lemma Qeqb_eq (a b : Q) : Qeqb a b = true <-> (a == b)%Q.
Proof.
  unfold Qeqb. rewrite Qeq_alt. destruct (a ?= b)%Q; split; congruence.
Qed.

Lemma Qltb_ge (a b : Q) : Qltb a b = false <-> (b <= a)%Q.
Proof.
  rewrite <- Bool.not_true_iff_false, Qltb_lt. split.
  - apply Qnot_lt_le.
  - apply Qle_not_lt.
Qed.

Lemma Qeqb_neq (a b : Q) : Qeqb a b = false <-> ~ (a == b)%Q.
Proof. rewrite <- Bool.not_true_iff_false, Qeqb_eq. tauto. Qed.

(** A value above 80 is not below 20. *)
Lemma fgt_80_not_flt_20 (u : float64) :
  fgt u (Fin 80) = true -> flt u (Fin 20) = false.
Proof.
  destruct u as [| | |q]; cbn; try congruence.
  rewrite Qltb_lt, Qltb_ge. intros H. lra.
Qed.

(** ** Utilization Calculator *)

Lemma utilization_nonzero_total (used total : Z) :
  total <> 0 ->
  utilization used total = Fin (inject_Z used / inject_Z total * 100).
Proof.
  intros Ht. unfold utilization, of_Z, fdiv.
  assert (Qeqb (inject_Z total) 0 = false) as ->; [|reflexivity].
  apply Qeqb_neq. intros H. apply Ht.
  unfold Qeq in H. cbn in H. lia.
Qed.

Lemma utilization_zero_total (used : Z) :
  utilization used 0 =
  match used ?= 0 with Eq => Fin 0 | Gt => PInf | Lt => NInf end.
Proof.
  destruct used; reflexivity.
Qed.

(** C1 (failing input).  On a file without utilization columns, the sample
    with [vcpus_used = 4] and [vcpus_total = 0] gets [cpu_utilization = +inf],
    not 0, from [MetricsAnalyzer.calculate_utilization_metrics] and from
    [UsageForecaster.load_metrics] alike: [fillna(0)] replaces the [NaN] of
    [0 / 0] only.  The collector's own ratio, which tests [vcpus_total > 0],
    gives 0 on the same counters. *)
Theorem cpu_utilization_zero_total_is_infinite :
  List.map (fun d : MetricsAnalyzer.Derived => cpu_utilization d)
    (MetricsAnalyzer.calculate_utilization_metrics Inputs.zero_total_frame)
  = [PInf]
  /\ List.map cpu_utilization
       (UsageForecaster.load_metrics Inputs.zero_total_frame)
     = [PInf]
  /\ collector_utilization 4 0 = Fin 0
  /\ utilization 0 0 = Fin 0.
Proof. repeat split. Qed.

(** ** Node Summary Aggregator *)

Lemma overall_of_spec (a b c : Risk) :
  (overall_of a b c = High <-> a = High \/ b = High \/ c = High)
  /\ (overall_of a b c = Low <-> a = Low /\ b = Low /\ c = Low)
  /\ risk_rank (overall_of a b c)
     = Nat.max (risk_rank a) (Nat.max (risk_rank b) (risk_rank c)).
Proof.
  destruct a, b, c; vm_compute; repeat split; intros; try congruence; auto;
    try (intuition congruence).
Qed.

(** C3.  In every row of the node summary, [overall_risk] is [High] exactly
    when one of the three metric risks is [High], it is [Low] exactly when
    all three are [Low], and it is the worst of the three under
    High > Medium > Low. *)
Theorem overall_risk_is_worst_metric_risk
  (df : list Derived) (row : NodeSummary) :
  row ∈ generate_node_summary df ->
  (overall_risk row = High <->
     cpu_risk row = High \/ memory_risk row = High \/ disk_risk row = High)
  /\ (overall_risk row = Low <->
        cpu_risk row = Low /\ memory_risk row = Low /\ disk_risk row = Low)
  /\ risk_rank (overall_risk row)
     = Nat.max (risk_rank (cpu_risk row))
         (Nat.max (risk_rank (memory_risk row)) (risk_rank (disk_risk row))).
Proof.
  unfold generate_node_summary. intros Hrow.
  apply list_elem_of_In, in_map_iff in Hrow as (n & <- & _).
  apply overall_of_spec.
Qed.

Lemma overall_risk_is_worst_metric_risk_witness :
  let row := summary_row Inputs.two_nodes "node-a" in
  row ∈ generate_node_summary Inputs.two_nodes
  /\ cpu_risk row = High
  /\ (overall_risk row = High <->
        cpu_risk row = High \/ memory_risk row = High \/ disk_risk row = High).
Proof.
  intros row.
  assert (Hin : row ∈ generate_node_summary Inputs.two_nodes).
  { apply list_elem_of_In. vm_compute. left. reflexivity. }
  split; [exact Hin|]. split; [reflexivity|].
  exact (proj1 (overall_risk_is_worst_metric_risk Inputs.two_nodes row Hin)).
Defined.

(** ** Keys and groups *)

Section Keys.
Context `{EqDecision A}.

Lemma elem_of_unique (l : list A) (x : A) : x ∈ Pandas.unique l <-> x ∈ l.
Proof.
  unfold Pandas.unique.
  rewrite elem_of_reverse, elem_of_remove_dups, elem_of_reverse. tauto.
Qed.

Lemma NoDup_unique (l : list A) : NoDup (Pandas.unique l).
Proof.
  unfold Pandas.unique. rewrite reverse_Permutation.
  apply NoDup_remove_dups.
Qed.
End Keys.

Lemma elem_of_groupby_keys (l : list string) (x : string) :
  x ∈ Pandas.groupby_keys l <-> x ∈ l.
Proof.
  unfold Pandas.groupby_keys.
  rewrite (merge_sort_Permutation Pandas.string_le (Pandas.unique l)).
  apply elem_of_unique.
Qed.

Lemma NoDup_groupby_keys (l : list string) : NoDup (Pandas.groupby_keys l).
Proof.
  unfold Pandas.groupby_keys.
  rewrite (merge_sort_Permutation Pandas.string_le (Pandas.unique l)).
  apply NoDup_unique.
Qed.

Section Filter.
Context {B : Type} (P : B -> Prop) `{forall b, Decision (P b)}.

Lemma filter_all (l : list B) : (forall b, b ∈ l -> P b) -> filter P l = l.
Proof.
  induction l as [|b l IH]; intros Hl; [reflexivity|].
  rewrite filter_cons_True by (apply Hl; left).
  f_equal. apply IH. intros b' Hb'. apply Hl. by right.
Qed.

Lemma filter_none (l : list B) :
  (forall b, b ∈ l -> ~ P b) -> filter P l = [].
Proof.
  induction l as [|b l IH]; intros Hl; [reflexivity|].
  rewrite filter_cons_False by (apply Hl; left).
  apply IH. intros b' Hb'. apply Hl. by right.
Qed.
End Filter.

Section Groups.
Context {K B : Type} `{EqDecision K}.
Variable key : B -> K.
Variable group : K -> list B.
Hypothesis group_key : forall k b, b ∈ group k -> key b = k.

(** Selecting the rows of one key from the concatenation of the groups of
    distinct keys gives back the group of that key. *)
Lemma filter_flat_map_groups (ks : list K) (k : K) :
  NoDup ks ->
  filter (fun b => key b = k) (flat_map group ks)
  = if decide (k ∈ ks) then group k else [].
Proof.
  induction ks as [|k' ks IH]; intros Hnd.
  { cbn. destruct (decide (k ∈ [])) as [Hin|]; [|reflexivity].
    by apply elem_of_nil in Hin. }
  apply NoDup_cons in Hnd as [Hk' Hnd]. cbn [flat_map].
  rewrite filter_app, (IH Hnd).
  destruct (decide (k' = k)) as [->|Hne].
  - rewrite filter_all by (intros b Hb; by apply group_key).
    rewrite (decide_False (P := k ∈ ks)) by exact Hk'.
    rewrite decide_True by (left).
    apply app_nil_r.
  - rewrite filter_none
      by (intros b Hb Hkb; apply Hne; rewrite <- Hkb; symmetry;
          by apply group_key).
    cbn [app]. destruct (decide (k ∈ ks)) as [Hin|Hnin].
    + rewrite decide_True; [reflexivity|by right].
    + rewrite decide_False; [reflexivity|].
      rewrite elem_of_cons. intros [->|?]; [by apply Hne|by apply Hnin].
Qed.
End Groups.

(** ** Capacity Analyzer *)

Lemma iff_decide (P Q : Prop) `{Decision P, Decision Q} :
  bool_decide P = bool_decide Q -> (P <-> Q).
Proof.
  intros Heq. rewrite <- (bool_decide_spec P), <- (bool_decide_spec Q), Heq.
  tauto.
Qed.

Lemma recommend_spec (r : Derived) :
  let rec := recommend r in
  rec_node rec = node r
  /\ recommendations rec <> []
  /\ NoDup (recommendations rec)
  /\ (cpu_high ∈ recommendations rec <-> fgt (cpu_utilization r) (Fin 80) = true)
  /\ (cpu_low ∈ recommendations rec <-> flt (cpu_utilization r) (Fin 20) = true)
  /\ (memory_high ∈ recommendations rec <->
        fgt (memory_utilization r) (Fin 80) = true)
  /\ (memory_low ∈ recommendations rec <->
        flt (memory_utilization r) (Fin 20) = true)
  /\ (disk_high ∈ recommendations rec <-> fgt (disk_utilization r) (Fin 80) = true)
  /\ (disk_low ∈ recommendations rec <-> flt (disk_utilization r) (Fin 20) = true)
  /\ (well_balanced ∈ recommendations rec <->
        fired (cpu_utilization r) = false
        /\ fired (memory_utilization r) = false
        /\ fired (disk_utilization r) = false).
Proof.
  cbv zeta. unfold recommend, threshold_check, fired.
  cbn [rec_node recommendations].
  pose proof (fgt_80_not_flt_20 (cpu_utilization r)) as Hc.
  pose proof (fgt_80_not_flt_20 (memory_utilization r)) as Hm.
  pose proof (fgt_80_not_flt_20 (disk_utilization r)) as Hd.
  destruct (fgt (cpu_utilization r) (Fin 80));
    [rewrite Hc by reflexivity|destruct (flt (cpu_utilization r) (Fin 20))];
    (destruct (fgt (memory_utilization r) (Fin 80));
     [rewrite Hm by reflexivity|destruct (flt (memory_utilization r) (Fin 20))]);
    (destruct (fgt (disk_utilization r) (Fin 80));
     [rewrite Hd by reflexivity|destruct (flt (disk_utilization r) (Fin 20))]);
    clear Hc Hm Hd;
    (split; [reflexivity|]); (split; [discriminate|]);
    (split; [compute_done|]);
    repeat (match goal with |- _ /\ _ => split end);
    lazymatch goal with |- ?P <-> ?Q => apply (iff_decide P Q) end;
    vm_compute; reflexivity.
Qed.

(** *** Rounding to two decimals *)



Lemma percent_positive_total (used total : Z) :
  0 < total ->
  percent used total = Fin (inject_Z used / inject_Z total * 100).
Proof.
  intros Ht. unfold percent, of_Z, fdiv.
  assert (Qeqb (inject_Z total) 0 = false) as ->; [|reflexivity].
  apply Qeqb_neq. intros H. unfold Qeq in H. cbn in H. lia.
Qed.

(** *** The latest row of each node *)

Lemma elem_of_of_node (n : string) (df : list Derived) (r : Derived) :
  r ∈ of_node n df <-> node r = n /\ r ∈ df.
Proof. unfold of_node. rewrite list_elem_of_filter. tauto. Qed.

Lemma of_node_last (n : string) (df : list Derived) :
  n ∈ List.map (fun r : Derived => node r) df ->
  exists r, last (of_node n df) = Some r.
Proof.
  intros Hn. apply list_elem_of_In, in_map_iff in Hn as (r & Hr & Hin).
  apply list_elem_of_In in Hin.
  destruct (last (of_node n df)) as [r'|] eqn:Hlast; [by exists r'|].
  apply last_None in Hlast.
  assert (Hr' : r ∈ of_node n df) by (by apply elem_of_of_node).
  rewrite Hlast in Hr'. by apply elem_of_nil in Hr'.
Qed.


Lemma latest_data_keys (df : list Derived) (ks : list string) :
  (forall k, k ∈ ks -> k ∈ List.map (fun r : Derived => node r) df) ->
  List.map (fun r : Derived => node r)
    (omap (fun n => latest_row (of_node n df)) ks) = ks.
Proof.
  induction ks as [|k ks IH]; intros Hks; [reflexivity|].
  destruct (of_node_last k df) as (r & Hlast); [apply Hks; left|].
  assert (Hr : r ∈ of_node k df) by (by eapply last_Some_elem_of).
  apply elem_of_of_node in Hr as [Hnode _].
  cbn [omap list_omap]. unfold latest_row at 1. rewrite Hlast.
  cbn [List.map sample node]. rewrite Hnode. f_equal.
  apply IH. intros k' Hk'. apply Hks. by right.
Qed.

Lemma latest_data_nodes (df : list Derived) :
  List.map (fun r : Derived => node r) (latest_data df)
  = Pandas.groupby_keys (List.map (fun r : Derived => node r) df).
Proof.
  apply latest_data_keys. intros k. apply elem_of_groupby_keys.
Qed.



(** C6.  The capacity analysis has one entry per node, in the order of the
    latest rows.  In each entry every resource is checked on its own
    (utilization above 80 appends the "add capacity" text of that resource,
    below 20 its "underutilized" text); "well-balanced" is there exactly when
    none of the three checks fired; the list is not empty and holds no text
    twice. *)
Theorem capacity_recommendations_per_resource (df : list Derived) :
  let entries := (generate_capacity_analysis df).2 in
  NoDup (List.map rec_node entries)
  /\ Forall2
       (fun (r : Derived) (rec : NodeRecommendation) =>
          rec_node rec = node r
          /\ recommendations rec <> []
          /\ NoDup (recommendations rec)
          /\ (cpu_high ∈ recommendations rec <->
                fgt (cpu_utilization r) (Fin 80) = true)
          /\ (cpu_low ∈ recommendations rec <->
                flt (cpu_utilization r) (Fin 20) = true)
          /\ (memory_high ∈ recommendations rec <->
                fgt (memory_utilization r) (Fin 80) = true)
          /\ (memory_low ∈ recommendations rec <->
                flt (memory_utilization r) (Fin 20) = true)
          /\ (disk_high ∈ recommendations rec <->
                fgt (disk_utilization r) (Fin 80) = true)
          /\ (disk_low ∈ recommendations rec <->
                flt (disk_utilization r) (Fin 20) = true)
          /\ (well_balanced ∈ recommendations rec <->
                fired (cpu_utilization r) = false
                /\ fired (memory_utilization r) = false
                /\ fired (disk_utilization r) = false))
       (latest_data df) entries.
Proof.
  cbv zeta. unfold generate_capacity_analysis. cbn [snd]. split.
  - rewrite List.map_map. cbn [recommend rec_node].
    rewrite latest_data_nodes. apply NoDup_groupby_keys.
  - induction (latest_data df) as [|r l IH]; constructor; [|exact IH].
    apply recommend_spec.
Qed.

Lemma wrap_int64_id (z : Z) : in_int64 z -> wrap_int64 z = z.
Proof.
  unfold in_int64, wrap_int64.
  change (2 ^ 63) with 9223372036854775808.
  change (2 ^ 64) with 18446744073709551616.
  intros Hz. rewrite Z.mod_small; lia.
Qed.







(** ** Recommendation Generator *)

Module RecommendationGenerator.
Import UsageForecaster.

Lemma recommend_node (n : string) (m : Metric) (fs : list ForecastRow)
  (r : Recommendation) :
  r ∈ recommend n m fs -> r_node r = n /\ r_metric r = m.
Proof.
  unfold recommend.
  repeat match goal with |- context [if ?b then _ else _] => destruct b end;
    intros H;
    first [ by apply elem_of_nil in H
          | apply list_elem_of_singleton in H as ->; split; reflexivity ].
Qed.

Lemma recommend_nil (n : string) (m : Metric) : recommend n m [] = [].
Proof. reflexivity. Qed.

Lemma filter_absent_key {B K : Type} `{EqDecision K} (key : B -> K)
  (l : list B) (k : K) :
  k ∉ Pandas.unique (List.map key l) -> filter (fun b => key b = k) l = [].
Proof.
  intros Hk. apply filter_none. intros b Hb Hkey. apply Hk.
  apply elem_of_unique, list_elem_of_In, in_map_iff.
  exists b. split; [exact Hkey|by apply list_elem_of_In].
Qed.

(** What the two loops emit for one (node, metric) pair is what the
    [if / elif / elif] emits on the horizon of that pair. *)
Lemma emitted_for_pair (forecasts : option (list ForecastRow))
  (current_time : Z) (n : string) (m : Metric) :
  emitted_for n m (generate_capacity_recommendations forecasts current_time)
  = recommend n m (horizon forecasts current_time n m).
Proof.
  unfold emitted_for, horizon, generate_capacity_recommendations, pair_rows.
  destruct forecasts as [[|f0 fs0]|]; [reflexivity| |reflexivity].
  set (future := filter (fun f => current_time < f_timestamp f) (f0 :: fs0)).
  rewrite (filter_flat_map_groups r_node) by
    (first [apply NoDup_unique
           | intros k b Hb; apply list_elem_of_In, in_flat_map in Hb
               as (m' & _ & Hb); apply list_elem_of_In in Hb;
             by apply recommend_node in Hb as [? _]]).
  destruct (decide (n ∈ Pandas.unique (List.map f_node future))) as [Hn|Hn].
  - rewrite (filter_flat_map_groups r_metric) by
      (first [apply NoDup_unique
             | intros k b Hb; by apply recommend_node in Hb as [_ ?]]).
    destruct (decide (m ∈ Pandas.unique
                (List.map f_metric (filter (fun f => f_node f = n) future))))
      as [Hm|Hm]; [reflexivity|].
    rewrite (filter_absent_key f_metric) by exact Hm. reflexivity.
  - rewrite (filter_absent_key f_node) by exact Hn. reflexivity.
Qed.

(** C4.  For a (node, metric) pair the generator emits at most one
    recommendation, chosen on the pair's forecast rows after the current
    time: Critical when their maximum exceeds 90, else High when it exceeds
    80, else Medium when their mean exceeds 70, else nothing.  A maximum of
    exactly 95 gives one Critical recommendation and no other. *)
Theorem one_recommendation_per_pair (forecasts : option (list ForecastRow))
  (current_time : Z) (n : string) (m : Metric) :
  let series := List.map forecast (horizon forecasts current_time n m) in
  let mine :=
    emitted_for n m (generate_capacity_recommendations forecasts current_time) in
  (length mine <= 1)%nat
  /\ (fgt (Pandas.max series) (Fin 90) = true ->
      List.map r_severity mine = [Critical])
  /\ (fgt (Pandas.max series) (Fin 90) = false ->
      fgt (Pandas.max series) (Fin 80) = true ->
      List.map r_severity mine = [High])
  /\ (fgt (Pandas.max series) (Fin 90) = false ->
      fgt (Pandas.max series) (Fin 80) = false ->
      fgt (Pandas.mean series) (Fin 70) = true ->
      List.map r_severity mine = [Medium])
  /\ (fgt (Pandas.max series) (Fin 90) = false ->
      fgt (Pandas.max series) (Fin 80) = false ->
      fgt (Pandas.mean series) (Fin 70) = false ->
      mine = [])
  /\ (Pandas.max series = Fin 95 -> List.map r_severity mine = [Critical]).
Proof.
  cbv zeta. rewrite emitted_for_pair. unfold recommend.
  set (series := List.map forecast (horizon forecasts current_time n m)).
  assert (H95 : Pandas.max series = Fin 95 ->
                fgt (Pandas.max series) (Fin 90) = true)
    by (intros ->; reflexivity).
  destruct (fgt (Pandas.max series) (Fin 90));
    [|destruct (fgt (Pandas.max series) (Fin 80));
      [|destruct (fgt (Pandas.mean series) (Fin 70))]];
    cbn [length List.map r_severity];
    repeat match goal with |- _ /\ _ => split end;
    intros; try reflexivity; try lia; try discriminate;
    match goal with H : Pandas.max _ = Fin 95 |- _ =>
      apply H95 in H; discriminate H end.
Qed.

(** One pair whose three future rows peak at exactly 95. *)
Lemma one_recommendation_per_pair_witness :
  let forecasts :=
    Some [ mkForecastRow 3600 (Fin 85) (Fin 80) (Fin 90) "node-a"
             CpuUtilization 0 None;
           mkForecastRow 7200 (Fin 95) (Fin 90) (Fin 99) "node-a"
             CpuUtilization 0 None;
           mkForecastRow 10800 (Fin 60) (Fin 55) (Fin 65) "node-a"
             CpuUtilization 0 None ] in
  List.map r_severity
    (emitted_for "node-a" CpuUtilization
       (generate_capacity_recommendations forecasts 0))
  = [Critical].
Proof.
  intros forecasts.
  apply (one_recommendation_per_pair forecasts 0 "node-a" CpuUtilization).
  reflexivity.
Defined.

End RecommendationGenerator.

(** ** Forecast accuracy *)

Module Accuracy.
Import UsageForecaster.

Lemma ape_nonzero_actual (y f : Q) :
  ~ (y == 0)%Q -> ape (Fin y, Fin f) = Fin (Qabs ((y + - f) / y)).
Proof.
  intros Hy. unfold ape, fsub, fneg, fadd, fdiv. cbn [fst snd].
  apply Qeqb_neq in Hy. rewrite Hy. reflexivity.
Qed.

Lemma ape_zero_actual (y f : Q) :
  (y == 0)%Q -> ~ (f == 0)%Q -> ape (Fin y, Fin f) = PInf.
Proof.
  intros Hy Hf. unfold ape, fsub, fneg, fadd, fdiv. cbn [fst snd].
  apply Qeqb_eq in Hy as Hy'. rewrite Hy'.
  destruct (y + - f ?= 0)%Q eqn:Hc; [|reflexivity|reflexivity].
  apply Qeq_alt in Hc. exfalso. apply Hf. lra.
Qed.

Lemma ape_zero_zero (y f : Q) :
  (y == 0)%Q -> (f == 0)%Q -> ape (Fin y, Fin f) = NaN.
Proof.
  intros Hy Hf. unfold ape, fsub, fneg, fadd, fdiv. cbn [fst snd].
  apply Qeqb_eq in Hy as Hy'. rewrite Hy'.
  assert (y + - f == 0)%Q as Hc by lra.
  apply Qeq_alt in Hc. rewrite Hc. reflexivity.
Qed.

(** Sums of numbers and [+inf]. *)
Lemma np_sum_finite (l : list float64) :
  Forall (fun x => is_finite x = true) l -> is_finite (Pandas.np_sum l) = true.
Proof.
  induction 1 as [|x l Hx _ IH]; [reflexivity|].
  cbn [Pandas.np_sum foldr]. fold (Pandas.np_sum l).
  destruct x; try discriminate. destruct (Pandas.np_sum l); try discriminate.
  reflexivity.
Qed.

Lemma np_sum_no_ninf (l : list float64) :
  Forall (fun x => is_finite x = true \/ x = PInf) l ->
  is_finite (Pandas.np_sum l) = true \/ Pandas.np_sum l = PInf.
Proof.
  induction 1 as [|x l Hx _ IH]; [by left|].
  cbn [Pandas.np_sum foldr]. fold (Pandas.np_sum l).
  destruct Hx as [Hx| ->].
  - destruct x; try discriminate.
    destruct IH as [IH| ->]; [|by right].
    destruct (Pandas.np_sum l); try discriminate. by left.
  - destruct IH as [IH| ->]; [|by right].
    destruct (Pandas.np_sum l); try discriminate. by right.
Qed.

Lemma np_sum_infinite (l : list float64) :
  Forall (fun x => is_finite x = true \/ x = PInf) l ->
  PInf ∈ l -> Pandas.np_sum l = PInf.
Proof.
  induction 1 as [|x l Hx Hl IH]; intros Hin; [by apply elem_of_nil in Hin|].
  cbn [Pandas.np_sum foldr]. fold (Pandas.np_sum l).
  apply elem_of_cons in Hin as [<-|Hin].
  - destruct (np_sum_no_ninf l Hl) as [Hs| ->]; [|reflexivity].
    destruct (Pandas.np_sum l); try discriminate. reflexivity.
  - rewrite (IH Hin). destruct Hx as [Hx| ->]; [|reflexivity].
    destruct x; try discriminate. reflexivity.
Qed.

Lemma of_nat_positive (k : nat) :
  (0 < k)%nat -> exists q, Pandas.of_nat k = Fin q /\ (0 < q)%Q.
Proof.
  intros Hk. eexists; split; [reflexivity|].
  unfold Qlt. cbn. lia.
Qed.

Lemma mean_numbers (l : list float64) :
  l <> [] -> Forall (fun x => is_finite x = true) l ->
  is_finite (Pandas.mean l) = true.
Proof.
  intros Hne Hl. unfold Pandas.mean.
  assert (Hd : Pandas.dropna l = l).
  { unfold Pandas.dropna. apply forallb_filter_id, forallb_forall.
    rewrite Forall_forall in Hl. intros x Hx%list_elem_of_In.
    specialize (Hl x Hx). by destruct x. }
  rewrite Hd. destruct l as [|x l]; [done|].
  pose proof (np_sum_finite (x :: l) Hl) as Hs.
  destruct (of_nat_positive (length (x :: l))) as (k & -> & Hk);
    [cbn; lia|].
  destruct (Pandas.np_sum (x :: l)) as [| | |s]; try discriminate.
  unfold fdiv. assert (Qeqb k 0 = false) as ->; [|reflexivity].
  apply Qeqb_neq. lra.
Qed.

Lemma mean_with_infinity (l : list float64) :
  Forall (fun x => is_finite x = true \/ x = PInf \/ x = NaN) l ->
  PInf ∈ l -> Pandas.mean l = PInf.
Proof.
  intros Hl Hin. unfold Pandas.mean.
  assert (Hd : Forall (fun x => is_finite x = true \/ x = PInf)
                 (Pandas.dropna l)).
  { rewrite Forall_forall in Hl. apply Forall_forall.
    intros x Hx%list_elem_of_In. apply filter_In in Hx as [Hx Hna].
    destruct (Hl x) as [?|[?| ->]]; auto. by apply list_elem_of_In. }
  assert (Hin' : PInf ∈ Pandas.dropna l).
  { apply list_elem_of_In, filter_In. split; [by apply list_elem_of_In|done]. }
  pose proof (np_sum_infinite _ Hd Hin') as Hs.
  destruct (Pandas.dropna l) as [|x v] eqn:Hv; [by apply elem_of_nil in Hin'|].
  rewrite Hs.
  destruct (of_nat_positive (length (x :: v))) as (k & -> & Hk); [cbn; lia|].
  unfold fdiv. assert (Qltb k 0 = false) as ->; [|reflexivity].
  apply Qltb_ge. lra.
Qed.

Lemma mape_of_ape (hist : list (float64 * float64)) :
  mape_of hist = fmul (Pandas.mean (List.map ape hist)) (Fin 100).
Proof. reflexivity. Qed.

Lemma ape_cases (hist : list (float64 * float64)) :
  finite_points hist ->
  Forall (fun x => is_finite x = true \/ x = PInf \/ x = NaN)
    (List.map ape hist).
Proof.
  intros Hfin. apply Forall_map. eapply Forall_impl; [exact Hfin|].
  intros h (y & f & ->).
  destruct (Qeq_dec y 0) as [Hy|Hy].
  - destruct (Qeq_dec f 0) as [Hf|Hf].
    + right; right. by apply ape_zero_zero.
    + right; left. by apply ape_zero_actual.
  - left. by rewrite ape_nonzero_actual.
Qed.

Lemma ape_values (hist : list (float64 * float64)) :
  Forall (fun x => is_finite x = true \/ x = PInf \/ x = NaN)
    (List.map ape hist).
Proof.
  apply Forall_map, Forall_forall. intros h _. unfold ape.
  destruct (fdiv (fsub h.1 h.2) h.1); cbn; auto.
Qed.

(** C2, as the code has it.  The MAPE is 100 times the mean of
    [abs((y - forecast) / y)] over the historical points, and nothing guards
    a zero actual.  A point with a zero actual and a non-zero forecast has
    the term [+inf], and the reported MAPE of a history that holds such a
    point is [+inf], whatever its other points are.  A point with a zero
    actual and a zero forecast has a [NaN] term, which the mean skips: the
    MAPE is the one of the other points. *)
Theorem mape_is_not_guarded (hist : list (float64 * float64)) :
  (forall y f, (y == 0)%Q -> ~ (f == 0)%Q -> ape (Fin y, Fin f) = PInf)
  /\ ((exists y f, (Fin y, Fin f) ∈ hist /\ (y == 0)%Q /\ ~ (f == 0)%Q) ->
      mape_of hist = PInf)
  /\ (forall y f, (y == 0)%Q -> (f == 0)%Q ->
      ape (Fin y, Fin f) = NaN
      /\ mape_of ((Fin y, Fin f) :: hist) = mape_of hist).
Proof.
  split; [exact ape_zero_actual|]. split.
  - intros (y & f & Hin & Hy & Hf). rewrite mape_of_ape.
    rewrite mean_with_infinity; [reflexivity|apply ape_values|].
    rewrite <- (ape_zero_actual y f Hy Hf).
    apply list_elem_of_In, in_map. by apply list_elem_of_In.
  - intros y f Hy Hf. split; [by apply ape_zero_zero|].
    rewrite !mape_of_ape. cbn [List.map].
    rewrite (ape_zero_zero y f Hy Hf). reflexivity.
Qed.

Lemma mape_is_not_guarded_witness :
  mape_of Inputs.zero_actual_history = PInf
  /\ mape_of [(Fin 0, Fin 0); (Fin 50, Fin 45)] = mape_of [(Fin 50, Fin 45)].
Proof.
  split.
  - apply (mape_is_not_guarded Inputs.zero_actual_history).
    exists 0%Q, 5%Q. split; [left|split; [reflexivity|discriminate]].
  - apply (mape_is_not_guarded [(Fin 50, Fin 45)] ); reflexivity.
Defined.

(** C2 (counterexample).  With actuals [0; 50] and in-sample forecasts
    [5; 45], the point with the zero actual contributes
    [abs((0 - 5) / 0) = +inf], and the reported MAPE is [+inf].  So it is for
    an idle node (CPU utilization 0 in each of its twelve samples) whose
    in-sample forecast is 5: every forecast row of the pair carries a MAPE
    of [+inf]. *)
Lemma mape_zero_actual_is_infinite :
  (Fin 0, Fin 5) ∈ Inputs.zero_actual_history
  /\ ape (Fin 0, Fin 5) = PInf
  /\ mape_of Inputs.zero_actual_history = PInf
  /\ option_map (List.map (fun f => option_map mape (accuracy f)))
       (forecast_metric Inputs.sqrt_stub (fun _ _ => 0) unit (Some tt)
          Inputs.five_predict (load_metrics Inputs.idle_frame) "node-a"
          CpuUtilization 24 3600)
     = Some (List.repeat (Some PInf) 12).
Proof. split; [left|split; [|split]; reflexivity]. Qed.

End Accuracy.

(** ** Forecasting Engine *)

Section ForecastingEngine.
Import UsageForecaster.

Variable sqrt : Q -> Q.
Variable now : string -> Metric -> Z.
Variable Model : Type.
Variable create_prophet_model : option Model.
Variable fit_predict :
  Model -> list (Z * float64) -> nat -> Z -> option (list Prediction).

Local Abbreviation forecast :=
  (forecast_metric sqrt now Model create_prophet_model fit_predict).

Lemma prepare_prophet_data_Some (df : list Sample) (n : string) (m : Metric)
  (data : list (Z * float64)) :
  prepare_prophet_data sqrt df n m = Some data <->
  (10 <= length (node_rows n df))%nat
  /\ (5 <= length (without_outliers sqrt (prophet_rows df n m)))%nat
  /\ data = without_outliers sqrt (prophet_rows df n m).
Proof.
  unfold prepare_prophet_data.
  destruct (Nat.ltb_spec (length (node_rows n df)) 10) as [H10|H10].
  { split; [discriminate|]. intros (? & _). lia. }
  destruct (Nat.ltb_spec
              (length (without_outliers sqrt (prophet_rows df n m))) 5)
    as [H5|H5].
  { split; [discriminate|]. intros (_ & ? & _). lia. }
  split; [intros [= <-]; auto|]. by intros (_ & _ & ->).
Qed.

Lemma forecast_metric_prepared (df : list Sample) (n : string) (m : Metric)
  (periods : nat) (freq : Z) (rows : list ForecastRow) :
  forecast df n m periods freq = Some rows ->
  exists data, prepare_prophet_data sqrt df n m = Some data.
Proof.
  unfold forecast, forecast_metric.
  destruct (prepare_prophet_data sqrt df n m) as [data|]; [|discriminate].
  intros _. by exists data.
Qed.

(** The MAPE carried by the forecast rows of a pair is [mape_of] on the
    pair's historical points. *)
Lemma reported_mape (df : list Sample) (n : string) (m : Metric)
  (periods : nat) (freq : Z) (rows : list ForecastRow) :
  forecast df n m periods freq = Some rows ->
  exists data model predictions,
    prepare_prophet_data sqrt df n m = Some data
    /\ fit_predict model data periods freq = Some predictions
    /\ forall f acc,
         f ∈ rows -> accuracy f = Some acc ->
         mape acc
         = mape_of (merge_left data
                      (filter (fun p => ds p ∈ List.map fst data) predictions)).
Proof.
  unfold forecast_metric.
  destruct (prepare_prophet_data sqrt df n m) as [data|]; [|discriminate].
  destruct create_prophet_model as [model|]; [|discriminate].
  destruct (fit_predict model data periods freq) as [predictions|] eqn:Hfit;
    [|discriminate].
  intros [= <-]. exists data, model, predictions.
  split; [reflexivity|]. split; [exact Hfit|].
  intros f acc Hf Hacc.
  apply list_elem_of_In, in_map_iff in Hf as (p & <- & _).
  cbn [accuracy] in Hacc.
  destruct (0 <? length _)%nat; [|discriminate].
  by injection Hacc as <-.
Qed.


End ForecastingEngine.


(** ** Trend Estimator *)

Section TrendMap.
Variable cond : string -> bool.
Variable val : string -> Trend.

(** The loop that fills the [trends] dict. *)
Lemma trends_loop_lookup (ks : list string) (m0 : gmap string Trend)
  (k : string) :
  foldl (fun (trends : gmap string Trend) (n : string) =>
           if cond n then <[n := val n]> trends else trends) m0 ks !! k
  = if decide (k ∈ ks) then (if cond k then Some (val k) else m0 !! k)
    else m0 !! k.
Proof.
  revert m0. induction ks as [|n ks IH]; intros m0; cbn [foldl].
  { rewrite decide_False; [reflexivity|apply not_elem_of_nil]. }
  rewrite IH. destruct (decide (k ∈ ks)) as [Hin|Hnin].
  - rewrite decide_True by (by right).
    destruct (cond k) eqn:Hk; [reflexivity|].
    destruct (cond n) eqn:Hn; [|reflexivity].
    rewrite lookup_insert_ne; [reflexivity|]. intros ->. congruence.
  - destruct (decide (n = k)) as [->|Hne].
    + rewrite decide_True by left.
      destruct (cond k); [by rewrite lookup_insert_eq|reflexivity].
    + rewrite decide_False
        by (rewrite elem_of_cons; intros [->|?]; [by apply Hne|by apply Hnin]).
      destruct (cond n); [by rewrite lookup_insert_ne|reflexivity].
Qed.
End TrendMap.

Lemma node_buckets_resampled (df : list Derived) (n : string) :
  node_buckets df n
  = if decide (n ∈ List.map (fun r : Derived => node r) df)
    then List.map (bucket n (of_node n df)) (bucket_hours (of_node n df))
    else [].
Proof.
  unfold node_buckets, resample_hourly.
  rewrite (filter_flat_map_groups h_node).
  - destruct (decide (n ∈ List.map (fun r : Derived => node r) df)) as [H|H].
    + rewrite decide_True; [reflexivity|by apply elem_of_groupby_keys].
    + rewrite decide_False; [reflexivity|by rewrite elem_of_groupby_keys].
  - intros k b Hb. apply list_elem_of_In, in_map_iff in Hb as (h & <- & _).
    reflexivity.
  - apply NoDup_groupby_keys.
Qed.

Lemma trends_lookup (df : list Derived) (n : string) :
  generate_time_series_analysis df !! n
  = if (1 <? length (node_buckets df n))%nat
    then Some (trend_of (node_buckets df n))
    else None.
Proof.
  unfold generate_time_series_analysis. cbv zeta.
  rewrite (trends_loop_lookup
             (fun n => (1 <? length (node_buckets df n))%nat)
             (fun n => trend_of (node_buckets df n))).
  rewrite lookup_empty.
  destruct (decide (n ∈ Pandas.unique (List.map (fun r : Derived => node r) df)))
    as [Hin|Hnin]; [reflexivity|].
  rewrite elem_of_unique in Hnin.
  rewrite node_buckets_resampled, decide_False by exact Hnin. reflexivity.
Qed.

(** C9.  A node whose resampled hourly series has fewer than 2 buckets has no
    entry in the trend map; a node with 2 buckets or more has one, with the
    three slopes fitted on its series and the number of its buckets. *)
Theorem trend_entry_iff_two_buckets (df : list Derived) (n : string) :
  let series := node_buckets df n in
  let trends := generate_time_series_analysis df in
  ((length series < 2)%nat -> trends !! n = None)
  /\ ((2 <= length series)%nat ->
      exists t, trends !! n = Some t
                /\ data_points t = length series
                /\ forall m,
                     trend_column m t
                     = Pandas.polyfit1_slope (Pandas.arange (length series))
                         (zero_filled m series)).
Proof.
  cbv zeta. rewrite trends_lookup.
  destruct (Nat.ltb_spec 1 (length (node_buckets df n))) as [H|H].
  - split; [lia|]. intros _. eexists. split; [reflexivity|].
    split; [reflexivity|]. intros []; reflexivity.
  - split; [reflexivity|lia].
Qed.

Lemma trend_entry_iff_two_buckets_witness :
  generate_time_series_analysis Inputs.gap !! "node-b" = None
  /\ exists t, generate_time_series_analysis Inputs.gap !! "node-a" = Some t
               /\ data_points t = 4%nat.
Proof.
  split.
  - apply (trend_entry_iff_two_buckets Inputs.gap "node-b").
    vm_compute. lia.
  - destruct (proj2 (trend_entry_iff_two_buckets Inputs.gap "node-a"))
      as (t & Ht & Hpoints & _); [vm_compute; lia|].
    exists t. split; [exact Ht|]. rewrite Hpoints. reflexivity.
Defined.

Lemma foldr_min_le (h : Z) (hs : list Z) (x : Z) :
  x ∈ h :: hs -> foldr Z.min h hs <= x.
Proof.
  induction hs as [|y hs IH]; cbn [foldr].
  - intros ->%list_elem_of_singleton. lia.
  - rewrite !elem_of_cons. intros [->|[->|Hx]].
    + specialize (IH ltac:(left)). lia.
    + lia.
    + specialize (IH ltac:(by right)). lia.
Qed.

Lemma foldr_max_ge (h : Z) (hs : list Z) (x : Z) :
  x ∈ h :: hs -> x <= foldr Z.max h hs.
Proof.
  induction hs as [|y hs IH]; cbn [foldr].
  - intros ->%list_elem_of_singleton. lia.
  - rewrite !elem_of_cons. intros [->|[->|Hx]].
    + specialize (IH ltac:(left)). lia.
    + lia.
    + specialize (IH ltac:(by right)). lia.
Qed.

(** Every hour between two samples of a group has its bucket. *)
Lemma bucket_hours_between (g : list Derived) (r1 r2 : Derived) (h : Z) :
  r1 ∈ g -> r2 ∈ g ->
  hour (timestamp r1) <= h <= hour (timestamp r2) ->
  h ∈ bucket_hours g.
Proof.
  intros H1 H2 Hh. unfold bucket_hours.
  assert (Hin : forall r : Derived, r ∈ g ->
            hour (timestamp r)
            ∈ List.map (fun r : Derived => hour (timestamp r)) g).
  { intros r Hr. apply list_elem_of_In.
    apply (in_map (fun r : Derived => hour (timestamp r))).
    by apply list_elem_of_In. }
  pose proof (Hin r1 H1) as Hr1. pose proof (Hin r2 H2) as Hr2.
  destruct (List.map (fun r : Derived => hour (timestamp r)) g) as [|h0 hs];
    [by apply elem_of_nil in Hr1|].
  apply foldr_min_le in Hr1. apply foldr_max_ge in Hr2.
  apply elem_of_seqZ. lia.
Qed.

Lemma bucket_without_samples (n : string) (g : list Derived) (h : Z)
  (m : Metric) :
  (forall r : Derived, r ∈ g -> hour (timestamp r) <> h) ->
  h_column m (bucket n g h) = NaN.
Proof.
  intros Hnone. unfold bucket.
  rewrite (filter_none (fun r : Derived => hour (timestamp r) = h) g)
    by exact Hnone.
  by destruct m.
Qed.

(** C10.  The series a node's trend is fitted on has one point per hourly
    bucket from the node's first to its last sampled hour.  A bucket without
    samples has a missing mean; it is kept in the series, at its own
    position, with the value 0, and it counts in [data_points]. *)
Theorem gaps_are_fitted_as_zero (df : list Derived) (n : string) (t : Trend) :
  generate_time_series_analysis df !! n = Some t ->
  let g := of_node n df in
  let series := node_buckets df n in
  (forall (r1 r2 : Derived) (h : Z),
      r1 ∈ g -> r2 ∈ g ->
      hour (timestamp r1) <= h <= hour (timestamp r2) ->
      h ∈ List.map h_hour series)
  /\ (forall (b : Hourly) (m : Metric),
        b ∈ series ->
        (forall r : Derived, r ∈ g -> hour (timestamp r) <> h_hour b) ->
        h_column m b = NaN)
  /\ (forall (m : Metric) (i : nat) (b : Hourly),
        series !! i = Some b -> h_column m b = NaN ->
        zero_filled m series !! i = Some (Fin 0))
  /\ (forall m : Metric,
        trend_column m t
        = Pandas.polyfit1_slope (Pandas.arange (length series))
            (zero_filled m series))
  /\ data_points t = length series.
Proof.
  rewrite trends_lookup. intros Ht. cbv zeta.
  destruct (1 <? length (node_buckets df n))%nat eqn:Hlen; [|discriminate].
  injection Ht as <-. apply Nat.ltb_lt in Hlen.
  assert (Hseries : node_buckets df n
                    = List.map (bucket n (of_node n df))
                        (bucket_hours (of_node n df))).
  { rewrite node_buckets_resampled in Hlen |- *.
    destruct (decide (n ∈ List.map (fun r : Derived => node r) df));
      [reflexivity|cbn in Hlen; lia]. }
  repeat match goal with |- _ /\ _ => split end.
  - intros r1 r2 h H1 H2 Hh. rewrite Hseries, List.map_map. cbn [h_hour bucket].
    rewrite List.map_id. by apply (bucket_hours_between _ r1 r2).
  - intros b m. rewrite Hseries. intros Hb Hnone.
    apply list_elem_of_In, in_map_iff in Hb as (h & <- & _).
    by apply bucket_without_samples.
  - intros m i b Hi Hna. unfold zero_filled.
    change (List.map ?f ?l) with (f <$> l).
    rewrite list_lookup_fmap, Hi. cbn. by rewrite Hna.
  - intros []; reflexivity.
  - reflexivity.
Qed.

(** On the stream with a gap, the hourly means of [node-a] are
    [10; missing; missing; 40]; the slope reported is 9, the slope of
    [10; 0; 0; 40] (the line through the two sampled hours alone has
    slope 10). *)
Lemma gaps_are_fitted_as_zero_witness :
  exists t, generate_time_series_analysis Inputs.gap !! "node-a" = Some t
            /\ data_points t = 4%nat
            /\ zero_filled CpuUtilization (node_buckets Inputs.gap "node-a") !! 1%nat
               = Some (Fin 0)
            /\ exists q, cpu_trend t = Fin q /\ (q == 9)%Q.
Proof.
  destruct (generate_time_series_analysis Inputs.gap !! "node-a") as [t|] eqn:Ht;
    [|vm_compute in Ht; discriminate Ht].
  exists t. split; [reflexivity|].
  destruct (gaps_are_fitted_as_zero Inputs.gap "node-a" t Ht)
    as (_ & _ & Hzero & Hfit & Hpoints).
  split; [rewrite Hpoints; reflexivity|]. split.
  - eapply Hzero; [vm_compute; reflexivity|reflexivity].
  - pose proof (Hfit CpuUtilization) as Hcpu. cbn [trend_column] in Hcpu.
    rewrite Hcpu. eexists. split; [vm_compute; reflexivity|].
    by vm_compute.
Defined.

(** ** Anomaly Detector *)

Section ConstantSeries.
Variable sqrt : Q -> Q.
Hypothesis sqrt_0 : forall q, (q == 0)%Q -> (sqrt q == 0)%Q.
Variable c : Q.

Lemma np_sum_constant (l : list float64) :
  Forall (fin_eq c) l ->
  fin_eq (inject_Z (Z.of_nat (length l)) * c) (Pandas.np_sum l).
Proof.
  induction 1 as [|x l (q & -> & Hq) _ (s & Hs & Hsum)].
  - exists 0%Q. split; [reflexivity|].
    change (inject_Z (Z.of_nat (length (@nil float64)))) with 0%Q. lra.
  - cbn [Pandas.np_sum foldr]. fold (Pandas.np_sum l). rewrite Hs.
    exists (q + s)%Q. split; [reflexivity|].
    cbn [length]. rewrite Nat2Z.inj_succ. unfold Z.succ.
    rewrite inject_Z_plus, Hq, Hsum. change (inject_Z 1) with 1%Q. lra.
Qed.

Lemma dropna_numbers (l : list float64) :
  Forall (fin_eq c) l -> Pandas.dropna l = l.
Proof.
  intros Hl. unfold Pandas.dropna. apply forallb_filter_id, forallb_forall.
  rewrite Forall_forall in Hl. intros x Hx%list_elem_of_In.
  by destruct (Hl x Hx) as (q & -> & _).
Qed.

Lemma inject_length_positive (l : list float64) :
  l <> [] -> (0 < inject_Z (Z.of_nat (length l)))%Q.
Proof.
  intros Hl. destruct l as [|x l]; [done|].
  unfold Qlt. cbn. lia.
Qed.

(** The mean of equal numbers is that number (or missing, of none). *)
Lemma mean_constant (l : list float64) :
  Forall (fin_eq c) l -> Pandas.mean l = NaN \/ fin_eq c (Pandas.mean l).
Proof.
  intros Hl. unfold Pandas.mean. rewrite (dropna_numbers l Hl).
  destruct l as [|x l]; [by left|]. right.
  destruct (np_sum_constant _ Hl) as (s & -> & Hs).
  pose proof (inject_length_positive (x :: l) ltac:(done)) as Hk.
  set (k := inject_Z (Z.of_nat (length (x :: l)))) in *.
  unfold Pandas.of_nat, of_Z, fdiv. fold k.
  assert (Qeqb k 0 = false) as -> by (apply Qeqb_neq; lra).
  exists (s / k)%Q. split; [reflexivity|].
  rewrite Hs. field. lra.
Qed.

(** Their standard deviation is 0 (or missing, of fewer than two). *)
Lemma std_constant (l : list float64) :
  Forall (fin_eq c) l ->
  Pandas.std sqrt l = NaN \/ fin_eq 0 (Pandas.std sqrt l).
Proof.
  intros Hl. unfold Pandas.std. rewrite (dropna_numbers l Hl).
  destruct (Nat.ltb_spec (length l) 2) as [Hshort|Hlong]; [by left|]. right.
  destruct (mean_constant l Hl) as [Hm|(y & Hm & Hy)].
  { unfold Pandas.mean in Hm. rewrite (dropna_numbers l Hl) in Hm.
    destruct l as [|x l]; [cbn in Hlong; lia|].
    destruct (np_sum_constant _ Hl) as (s & Hs & _). rewrite Hs in Hm.
    pose proof (inject_length_positive (x :: l) ltac:(done)) as Hk.
    unfold Pandas.of_nat, of_Z, fdiv in Hm.
    destruct (Qeqb (inject_Z (Z.of_nat (length (x :: l)))) 0) eqn:Hz;
      [apply Qeqb_eq in Hz; lra|discriminate Hm]. }
  rewrite Hm.
  assert (Hsq : Forall (fin_eq 0)
                  (List.map (fun x => fmul (fsub x (Fin y)) (fsub x (Fin y))) l)).
  { apply Forall_map. eapply Forall_impl; [exact Hl|].
    intros x (q & -> & Hq). eexists. split; [reflexivity|].
    rewrite Hq, Hy. ring. }
  revert Hsq.
  set (d := List.map (fun x => fmul (fsub x (Fin y)) (fsub x (Fin y))) l).
  intros Hsq.
  assert (Hd : fin_eq 0 (Pandas.np_sum d)).
  { clear -Hsq. induction Hsq as [|x d (q & -> & Hq) _ (s & Hs & Hsum)].
    - by exists 0%Q.
    - cbn [Pandas.np_sum foldr]. fold (Pandas.np_sum d). rewrite Hs.
      exists (q + s)%Q. split; [reflexivity|]. rewrite Hq, Hsum. lra. }
  destruct Hd as (s & -> & Hs).
  assert (Hk : (0 < inject_Z (Z.of_nat (length l - 1)))%Q).
  { unfold Qlt. cbn. lia. }
  set (k := inject_Z (Z.of_nat (length l - 1))) in *.
  unfold Pandas.of_nat, of_Z, fdiv. fold k.
  assert (Qeqb k 0 = false) as -> by (apply Qeqb_neq; lra).
  assert (Hv : (s / k == 0)%Q) by (rewrite Hs; field; lra).
  unfold Pandas.fsqrt.
  assert (Qltb (s / k) 0 = false) as -> by (apply Qltb_ge; lra).
  exists (sqrt (s / k)). split; [reflexivity|].
  by apply sqrt_0.
Qed.

End ConstantSeries.

Lemma rolling_windows_Forall {A} (P : A -> Prop) (window : nat) (l win : list A) :
  Forall P l -> win ∈ Pandas.rolling window l -> Forall P win.
Proof.
  intros Hl Hwin. unfold Pandas.rolling in Hwin.
  apply list_elem_of_In, in_map_iff in Hwin as (i & <- & _).
  by apply Forall_drop, Forall_take.
Qed.

Lemma inside_band (c : Q) (x mu sd : float64) :
  fin_eq c x ->
  mu = NaN \/ fin_eq c mu ->
  sd = NaN \/ fin_eq 0 sd ->
  fgt x (fadd mu (fmul (Fin 2) sd)) || flt x (fsub mu (fmul (Fin 2) sd))
  = false.
Proof.
  intros (q & -> & Hq) [->|(y & -> & Hy)] [->|(s & -> & Hs)];
    try reflexivity.
  cbn. apply Bool.orb_false_iff. split; apply Qltb_ge; lra.
Qed.

Section AnomalyDetector.
Variable sqrt : Q -> Q.
Hypothesis sqrt_0 : forall q, (q == 0)%Q -> (sqrt q == 0)%Q.

Lemma constant_rows_inside_band (m : Metric) (node_data : list Derived)
  (row : Derived * (float64 * float64)) :
  constant_series (List.map (fun r : Derived => column m r) node_data) ->
  row ∈ with_rolling sqrt m node_data ->
  outside_band m row = false.
Proof.
  intros (c & Hc) Hrow. destruct row as (r & mu & sd).
  unfold with_rolling in Hrow.
  apply elem_of_zip_l in Hrow as Hr. apply elem_of_zip_r in Hrow as Hstats.
  apply elem_of_zip_l in Hstats as Hmu. apply elem_of_zip_r in Hstats as Hsd.
  apply list_elem_of_In, in_map_iff in Hmu as (w1 & <- & Hw1).
  apply list_elem_of_In, in_map_iff in Hsd as (w2 & <- & Hw2).
  apply list_elem_of_In in Hw1, Hw2.
  assert (Hc' : Forall (fin_eq c)
                  (List.map Pandas.inf_to_nan
                     (List.map (fun r : Derived => column m r) node_data))).
  { apply Forall_map. eapply Forall_impl; [exact Hc|].
    intros x (q & -> & Hq). by exists q. }
  apply (rolling_windows_Forall _ _ _ _ Hc') in Hw1, Hw2.
  unfold outside_band. apply (inside_band c).
  - rewrite Forall_forall in Hc. apply Hc.
    apply list_elem_of_In. apply (in_map (fun r : Derived => column m r)).
    by apply list_elem_of_In.
  - by apply mean_constant.
  - by apply (std_constant sqrt sqrt_0 c).
Qed.

Lemma metric_anomalies_node (n : string) (m : Metric)
  (node_data : list Derived) (a : Anomaly) :
  a ∈ metric_anomalies sqrt n m node_data ->
  a_node a = n
  /\ exists row, row ∈ with_rolling sqrt m node_data
                 /\ outside_band m row = true.
Proof.
  unfold metric_anomalies. intros Ha.
  apply list_elem_of_In, in_map_iff in Ha as (row & <- & Hrow).
  apply filter_In in Hrow as [Hrow Hout]. split.
  - by destruct row as (r & mu & sd).
  - exists row. split; [by apply list_elem_of_In|exact Hout].
Qed.

(** C5.  When the CPU and the memory utilization of a node are constant over
    its two or more samples, no sample of the node is outside its
    [rolling_mean ± 2·rolling_std] band, for either metric, and the anomaly
    list holds no anomaly of that node. *)
Theorem constant_series_has_no_anomaly (df : list Derived) (n : string) :
  (2 <= length (of_node n df))%nat ->
  constant_series
    (List.map (fun r : Derived => cpu_utilization r) (of_node n df)) ->
  constant_series
    (List.map (fun r : Derived => memory_utilization r) (of_node n df)) ->
  (forall row, row ∈ with_rolling sqrt CpuUtilization (of_node n df) ->
               outside_band CpuUtilization row = false)
  /\ (forall row, row ∈ with_rolling sqrt MemoryUtilization (of_node n df) ->
                  outside_band MemoryUtilization row = false)
  /\ (forall a, a ∈ generate_anomaly_detection sqrt df -> a_node a <> n).
Proof.
  intros _ Hcpu Hmem.
  assert (Hc : forall row,
             row ∈ with_rolling sqrt CpuUtilization (of_node n df) ->
             outside_band CpuUtilization row = false)
    by (intros row; by apply constant_rows_inside_band).
  assert (Hm : forall row,
             row ∈ with_rolling sqrt MemoryUtilization (of_node n df) ->
             outside_band MemoryUtilization row = false)
    by (intros row; by apply constant_rows_inside_band).
  split; [exact Hc|]. split; [exact Hm|].
  intros a Ha Hnode. unfold generate_anomaly_detection in Ha.
  apply list_elem_of_In, in_flat_map in Ha as (n' & _ & Ha).
  apply list_elem_of_In, elem_of_app in Ha as [Ha|Ha];
    apply metric_anomalies_node in Ha as (Hn' & row & Hrow & Hout);
    rewrite Hnode in Hn'; subst n'.
  - by rewrite (Hc row Hrow) in Hout.
  - by rewrite (Hm row Hrow) in Hout.
Qed.

End AnomalyDetector.

Lemma constant_series_has_no_anomaly_witness :
  Forall (fun a => a_node a <> "node-a")
    (generate_anomaly_detection Inputs.sqrt_stub Inputs.steady).
Proof.
  apply Forall_forall.
  apply (constant_series_has_no_anomaly Inputs.sqrt_stub (fun q H => H)
           Inputs.steady "node-a").
  - vm_compute. lia.
  - exists 50%Q. vm_compute.
    repeat constructor; eexists; (split; [reflexivity|reflexivity]).
  - exists 50%Q. vm_compute.
    repeat constructor; eexists; (split; [reflexivity|reflexivity]).
Defined.

(** * Further properties of the two classes *)

(** ** Utilization columns *)

Lemma inject_Z_ratio_bounds (used total : Z) :
  0 <= used <= total -> 0 < total ->
  (0 <= inject_Z used / inject_Z total * 100 <= 100)%Q.
Proof.
  intros [Hlo Hhi] Ht.
  assert (Hu : (0 <= inject_Z used)%Q) by (unfold Qle; cbn; lia).
  assert (Hut : (inject_Z used <= inject_Z total)%Q) by (unfold Qle; cbn; lia).
  assert (Htq : (0 < inject_Z total)%Q) by (unfold Qlt; cbn; lia).
  assert (H0 : (0 <= inject_Z used / inject_Z total)%Q)
    by (apply Qle_shift_div_l; [exact Htq|lra]).
  assert (H1 : (inject_Z used / inject_Z total <= 1)%Q)
    by (apply Qle_shift_div_r; [exact Htq|lra]).
  split; lra.
Qed.

(** With a positive total and a usage between 0 and the total, the computed
    utilization is a number between 0 and 100. *)
Theorem utilization_in_range (used total : Z) :
  0 <= used <= total -> 0 < total ->
  exists q, utilization used total = Fin q /\ (0 <= q <= 100)%Q.
Proof.
  intros Hused Htotal. rewrite utilization_nonzero_total by lia.
  eexists. split; [reflexivity|]. by apply inject_Z_ratio_bounds.
Qed.

Lemma utilization_in_range_witness :
  exists q, utilization 7 8 = Fin q /\ (0 <= q <= 100)%Q.
Proof. apply (utilization_in_range 7 8); lia. Defined.

Lemma utilization_not_missing (used total : Z) :
  isna (utilization used total) = false.
Proof.
  destruct (decide (total = 0)) as [->|Hne].
  - rewrite utilization_zero_total. by destruct (used ?= 0).
  - by rewrite utilization_nonzero_total.
Qed.

(** After [calculate_utilization_metrics] the two efficiency columns hold no
    missing value, and neither does a utilization column that the method
    itself computed; with a zero total such a column holds 0 or an infinity
    of the sign of the usage. *)
Theorem computed_columns_have_no_missing_value (df : Frame) :
  Forall (fun d : Derived =>
            isna (cpu_efficiency d) = false
            /\ isna (memory_efficiency d) = false
            /\ (has_cpu_utilization df = false ->
                isna (cpu_utilization d) = false
                /\ (vcpus_total d = 0 ->
                    cpu_utilization d
                    = match vcpus_used d ?= 0 with
                      | Eq => Fin 0 | Gt => PInf | Lt => NInf
                      end))
            /\ (has_memory_utilization df = false ->
                isna (memory_utilization d) = false)
            /\ (has_disk_utilization df = false ->
                isna (disk_utilization d) = false))
    (calculate_utilization_metrics df).
Proof.
  unfold calculate_utilization_metrics. apply Forall_map, Forall_forall.
  intros s _. unfold derive, with_utilization.
  cbn [cpu_efficiency memory_efficiency sample cpu_utilization
         memory_utilization disk_utilization vcpus_total vcpus_used].
  repeat split; try apply utilization_not_missing.
  - rewrite H. apply utilization_not_missing.
  - rewrite H. intros ->. apply utilization_zero_total.
  - intros ->. apply utilization_not_missing.
  - intros ->. apply utilization_not_missing.
Qed.

(** Utilization columns that the file has are kept as they are: no row is
    recomputed from its counters. *)
Theorem present_columns_are_kept (df : Frame) :
  has_cpu_utilization df = true ->
  has_memory_utilization df = true ->
  has_disk_utilization df = true ->
  UsageForecaster.load_metrics df = rows df
  /\ List.map sample (calculate_utilization_metrics df) = rows df.
Proof.
  intros Hc Hm Hd.
  unfold calculate_utilization_metrics. rewrite List.map_map.
  change (List.map (fun s => sample (derive df s)) (rows df))
    with (UsageForecaster.load_metrics df).
  assert (H : UsageForecaster.load_metrics df = rows df); [|by split].
  unfold UsageForecaster.load_metrics.
  rewrite <- (List.map_id (rows df)) at 2. apply List.map_ext.
  intros s. unfold with_utilization. rewrite Hc, Hm, Hd. by destruct s.
Qed.

Lemma present_columns_are_kept_witness :
  UsageForecaster.load_metrics Inputs.collector_frame
  = rows Inputs.collector_frame.
Proof.
  apply (present_columns_are_kept Inputs.collector_frame); reflexivity.
Defined.

(** With a positive total the collector's guarded ratio and the analyzer's
    [fillna] ratio are the same value; with a total of 0 the collector
    writes 0 whatever the usage. *)
Theorem collector_and_analyzer_ratio (used total : Z) :
  (0 < total -> collector_utilization used total = utilization used total)
  /\ (total <= 0 -> collector_utilization used total = Fin 0).
Proof.
  unfold collector_utilization. split; intros Ht.
  - assert ((0 <? total) = true) as -> by lia.
    rewrite utilization_nonzero_total by lia.
    by rewrite <- percent_positive_total.
  - by assert ((0 <? total) = false) as -> by lia.
Qed.

Lemma collector_and_analyzer_ratio_witness :
  collector_utilization 7 8 = utilization 7 8
  /\ collector_utilization 4 0 = Fin 0.
Proof.
  split; apply (collector_and_analyzer_ratio _ _); lia.
Defined.

(** With a positive vCPU capacity and no CPU column in the file, the CPU
    waste of a row is the share of the capacity that is in use beyond what
    the flavors of its instances declare:
    [(vcpus_used - total_instance_vcpus) / vcpus_total * 100]. *)
Theorem cpu_waste_positive_total (df : Frame) (s : Sample) :
  has_cpu_utilization df = false -> 0 < vcpus_total s ->
  exists q, cpu_waste (derive df s) = Fin q
            /\ (q == inject_Z (vcpus_used s - total_instance_vcpus s)
                     / inject_Z (vcpus_total s) * 100)%Q.
Proof.
  intros Hc Ht. unfold derive, with_utilization.
  cbn [cpu_waste sample cpu_utilization]. rewrite Hc.
  rewrite !utilization_nonzero_total by lia.
  eexists. split; [reflexivity|].
  unfold Z.sub. rewrite inject_Z_plus, inject_Z_opp.
  assert (~ (inject_Z (vcpus_total s) == 0)%Q)
    by (unfold Qeq; cbn; lia).
  field. assumption.
Qed.

Lemma cpu_waste_positive_total_witness :
  exists q, cpu_waste (derive Inputs.two_nodes_frame
                         (mkSample 0 "node-a" 7 8 4096 8192 50 100 3 6 4096
                            NaN NaN NaN)) = Fin q
            /\ (q == inject_Z (7 - 6) / inject_Z 8 * 100)%Q.
Proof.
  apply (cpu_waste_positive_total Inputs.two_nodes_frame
           (mkSample 0 "node-a" 7 8 4096 8192 50 100 3 6 4096 NaN NaN NaN));
    [reflexivity|reflexivity].
Defined.

(** ** Risk tiers *)

(** The risk tier never goes down when the mean utilization goes up, and the
    two thresholds are strict: exactly 80 is Medium, exactly 60 is Low. *)
Theorem risk_of_monotone (x y : float64) :
  isna x = false -> isna y = false -> fle x y = true ->
  (risk_rank (risk_of x) <= risk_rank (risk_of y))%nat
  /\ risk_of (Fin 80) = Medium /\ risk_of (Fin 60) = Low.
Proof.
  intros Hx Hy Hle. split; [|split; reflexivity].
  unfold risk_of, fgt.
  destruct x as [| | |a], y as [| | |b]; try discriminate; cbn in Hle |- *;
    try lia.
  - destruct (Qltb 80 a), (Qltb 60 a); cbn; lia.
  - apply Qleb_le in Hle.
    destruct (Qltb 80 a) eqn:Ha80.
    { apply Qltb_lt in Ha80.
      assert (Qltb 80 b = true) as -> by (apply Qltb_lt; lra). cbn. lia. }
    destruct (Qltb 80 b); [destruct (Qltb 60 a); cbn; lia|].
    destruct (Qltb 60 a) eqn:Ha60; [|destruct (Qltb 60 b); cbn; lia].
    apply Qltb_lt in Ha60.
    assert (Qltb 60 b = true) as -> by (apply Qltb_lt; lra). cbn. lia.
Qed.

Lemma risk_of_monotone_witness :
  (risk_rank (risk_of (Fin 25)) <= risk_rank (risk_of (Fin (875 # 10))))%nat.
Proof.
  apply (risk_of_monotone (Fin 25) (Fin (875 # 10))); reflexivity.
Defined.

(** The node summary has one row per node of the frame, in the sorted order
    of the node names; an empty frame has an empty summary. *)
Theorem node_summary_rows (df : list Derived) :
  let nodes := List.map ns_node (generate_node_summary df) in
  NoDup nodes
  /\ Sorted Pandas.string_le nodes
  /\ (forall n, n ∈ nodes <-> n ∈ List.map (fun r : Derived => node r) df)
  /\ (df = [] -> generate_node_summary df = []).
Proof.
  cbv zeta. unfold generate_node_summary. rewrite List.map_map.
  cbn [ns_node summary_row]. rewrite List.map_id.
  split; [apply NoDup_groupby_keys|]. split; [|split].
  - unfold Pandas.groupby_keys. apply Sorted_merge_sort.
    intros a b. apply String.leb_total.
  - intros n. apply elem_of_groupby_keys.
  - by intros ->.
Qed.

(** ** Capacity analysis: the cluster record *)

Lemma length_groupby_keys (l : list string) :
  length (Pandas.groupby_keys l) = length (Pandas.unique l).
Proof.
  unfold Pandas.groupby_keys.
  by rewrite (merge_sort_Permutation Pandas.string_le (Pandas.unique l)).
Qed.

(** On a frame that has rows, the cluster record counts each node of the
    stream once; its available vCPUs and disk are what is left of the totals
    wherever that difference fits an int64; and nothing guards a zero total:
    the CPU percentage is then missing (no usage) or infinite. *)
Theorem cluster_record_bookkeeping (df : list Derived) :
  df <> [] ->
  let cluster := (generate_capacity_analysis df).1 in
  total_nodes cluster
  = length (Pandas.unique (List.map (fun r : Derived => node r) df))
  /\ (in_int64 (total_vcpus cluster - used_vcpus cluster) ->
      used_vcpus cluster + available_vcpus cluster = total_vcpus cluster)
  /\ (in_int64 (total_disk_gb cluster - used_disk_gb cluster) ->
      used_disk_gb cluster + available_disk_gb cluster = total_disk_gb cluster)
  /\ (total_vcpus cluster = 0 ->
      cluster_cpu_utilization cluster
      = match used_vcpus cluster ?= 0 with
        | Eq => NaN | Gt => PInf | Lt => NInf
        end).
Proof.
  intros _. cbv zeta. unfold generate_capacity_analysis, cluster_of.
  cbn [fst total_nodes used_vcpus available_vcpus total_vcpus used_disk_gb
         available_disk_gb total_disk_gb cluster_cpu_utilization].
  split.
  { rewrite <- (length_map (fun r : Derived => node r) (latest_data df)).
    change (map ?f ?l) with (List.map f l).
    rewrite latest_data_nodes. apply length_groupby_keys. }
  split; [intros H; rewrite (wrap_int64_id _ H); lia|].
  split; [intros H; rewrite (wrap_int64_id _ H); lia|].
  intros ->. unfold percent.
  by destruct (sum_int64 (List.map (fun r : Derived => vcpus_used r)
                            (latest_data df))).
Qed.

Lemma cluster_record_bookkeeping_witness :
  let cluster := (generate_capacity_analysis Inputs.history).1 in
  total_nodes cluster = 2%nat
  /\ used_vcpus cluster + available_vcpus cluster = total_vcpus cluster.
Proof.
  intros cluster.
  destruct (cluster_record_bookkeeping Inputs.history) as (Hn & Hv & _);
    [intros H; vm_compute in H; discriminate H|].
  split; [exact Hn|]. apply Hv. vm_compute. split; [discriminate|reflexivity].
Defined.

(** Each node gets between one and three texts, and never both the "add
    capacity" and the "underutilized" text of the same resource. *)
Theorem node_recommendations_bounds (r : Derived) :
  let recs := recommendations (recommend r) in
  (1 <= length recs <= 3)%nat
  /\ ~ (cpu_high ∈ recs /\ cpu_low ∈ recs)
  /\ ~ (memory_high ∈ recs /\ memory_low ∈ recs)
  /\ ~ (disk_high ∈ recs /\ disk_low ∈ recs)
  /\ (well_balanced ∈ recs -> recs = [well_balanced]).
Proof.
  cbv zeta. unfold recommend, threshold_check. cbn [recommendations].
  destruct (fgt (cpu_utilization r) (Fin 80));
    [|destruct (flt (cpu_utilization r) (Fin 20))];
    (destruct (fgt (memory_utilization r) (Fin 80));
     [|destruct (flt (memory_utilization r) (Fin 20))]);
    (destruct (fgt (disk_utilization r) (Fin 80));
     [|destruct (flt (disk_utilization r) (Fin 20))]);
    (split; [cbn; lia|]);
    repeat (match goal with |- _ /\ _ => split end);
    first [ reflexivity
          | intros H; exfalso; revert H;
            lazymatch goal with |- ?P -> False =>
              change (~ P); apply (bool_decide_eq_false P); vm_compute;
              reflexivity end
          | lazymatch goal with |- ~ ?P =>
              apply (bool_decide_eq_false P); vm_compute; reflexivity end ].
Qed.

(** ** Anomaly detection: which rows can be flagged *)

Section AnomalyRows.
Variable sqrt : Q -> Q.

Lemma std_of_one (l : list float64) :
  (length l <= 1)%nat -> Pandas.std sqrt l = NaN.
Proof.
  intros Hl. unfold Pandas.std.
  assert (Hd : (length (Pandas.dropna l) <= length l)%nat)
    by apply List.filter_length_le.
  by assert ((length (Pandas.dropna l) <? 2)%nat = true) as ->
      by (apply Nat.ltb_lt; lia).
Qed.

Lemma missing_std_inside_band (m : Metric) (r : Derived) (mu : float64) :
  outside_band m (r, (mu, NaN)) = false.
Proof.
  unfold outside_band, fgt, fsub. cbn [fmul fneg].
  assert (fadd mu NaN = NaN) as -> by (by destruct mu).
  by destruct (column m r).
Qed.

Lemma with_rolling_head (m : Metric) (node_data : list Derived)
  (row : Derived * (float64 * float64)) :
  head (with_rolling sqrt m node_data) = Some row ->
  exists r mu, row = (r, (mu, NaN)).
Proof.
  unfold with_rolling, Pandas.rolling.
  destruct node_data as [|r rest]; [discriminate|].
  cbn [List.map length seq zip zip_with head]. intros [= <-].
  eexists _, _. f_equal. f_equal. apply std_of_one.
  rewrite take_0. cbn [length]. lia.
Qed.

(** The first sample of a node is never flagged: its rolling standard
    deviation is missing, and no comparison with a missing bound holds.  A
    node with a single sample has no anomaly. *)
Theorem first_sample_is_never_flagged (n : string) (m : Metric)
  (node_data : list Derived) :
  (forall row, head (with_rolling sqrt m node_data) = Some row ->
               outside_band m row = false)
  /\ (length node_data = 1%nat -> metric_anomalies sqrt n m node_data = []).
Proof.
  split.
  - intros row Hrow.
    apply with_rolling_head in Hrow as (r & mu & ->).
    apply missing_std_inside_band.
  - intros Hone. destruct node_data as [|r [|r' rest]]; try discriminate.
    unfold metric_anomalies.
    destruct (with_rolling sqrt m [r]) as [|row rows] eqn:Hrows;
      [reflexivity|].
    assert (Hhead : head (with_rolling sqrt m [r]) = Some row)
      by (by rewrite Hrows).
    assert (rows = []) as ->.
    { assert (Hlen : length (with_rolling sqrt m [r]) = 1%nat) by reflexivity.
      rewrite Hrows in Hlen. by destruct rows. }
    apply with_rolling_head in Hhead as (r0 & mu & ->).
    cbn [List.filter]. by rewrite missing_std_inside_band.
Qed.

(** Every anomaly reports a row of the frame: its node, its timestamp and
    its rounded CPU or memory utilization; disk utilization is never
    examined. *)
Theorem anomalies_report_rows_of_the_frame (df : list Derived) :
  Forall (fun a =>
            a_metric a <> DiskUtilization
            /\ exists r : Derived,
                 r ∈ df /\ node r = a_node a
                 /\ timestamp r = a_timestamp a
                 /\ a_value a = round2 (column (a_metric a) r))
    (generate_anomaly_detection sqrt df).
Proof.
  apply Forall_forall. intros a Ha. unfold generate_anomaly_detection in Ha.
  apply list_elem_of_In, in_flat_map in Ha as (n & _ & Ha).
  assert (Hrow : forall m, m <> DiskUtilization ->
            a ∈ metric_anomalies sqrt n m (of_node n df) ->
            a_metric a <> DiskUtilization
            /\ exists r : Derived,
                 r ∈ df /\ node r = a_node a
                 /\ timestamp r = a_timestamp a
                 /\ a_value a = round2 (column (a_metric a) r)).
  { intros m Hm Hin. unfold metric_anomalies in Hin.
    apply list_elem_of_In, in_map_iff in Hin as (row & <- & Hrow).
    apply filter_In in Hrow as [Hrow _]. apply list_elem_of_In in Hrow.
    destruct row as (r & mu & sd). unfold with_rolling in Hrow.
    apply elem_of_zip_l, elem_of_of_node in Hrow as [Hnode Hr].
    split; [exact Hm|]. exists r. by repeat split. }
  apply list_elem_of_In, elem_of_app in Ha as [Ha|Ha];
    eapply Hrow; try exact Ha; discriminate.
Qed.

End AnomalyRows.

(** ** Trends: hours, not samples *)

Lemma foldr_min_elem (h : Z) (hs : list Z) : foldr Z.min h hs ∈ h :: hs.
Proof.
  induction hs as [|y hs IH]; cbn [foldr]; [left|].
  destruct (Z.min_spec y (foldr Z.min h hs)) as [[_ ->]|[_ ->]].
  - right; left.
  - apply elem_of_cons in IH as [->|IH]; [left|right; by right].
Qed.

Lemma foldr_max_elem (h : Z) (hs : list Z) : foldr Z.max h hs ∈ h :: hs.
Proof.
  induction hs as [|y hs IH]; cbn [foldr]; [left|].
  destruct (Z.max_spec y (foldr Z.max h hs)) as [[_ ->]|[_ ->]].
  - apply elem_of_cons in IH as [->|IH]; [left|right; by right].
  - right; left.
Qed.

(** The buckets of a group span its first to its last sampled hour. *)
Lemma bucket_hours_span (g : list Derived) :
  g <> [] ->
  exists first last : Derived,
    first ∈ g /\ last ∈ g
    /\ (forall r : Derived, r ∈ g ->
          hour (timestamp first) <= hour (timestamp r) <= hour (timestamp last))
    /\ bucket_hours g
       = seqZ (hour (timestamp first))
           (hour (timestamp last) - hour (timestamp first) + 1).
Proof.
  intros Hg. unfold bucket_hours.
  assert (Hin : forall r : Derived, r ∈ g ->
            hour (timestamp r)
            ∈ List.map (fun r : Derived => hour (timestamp r)) g).
  { intros r Hr. apply list_elem_of_In.
    apply (in_map (fun r : Derived => hour (timestamp r))).
    by apply list_elem_of_In. }
  assert (Hout : forall h,
            h ∈ List.map (fun r : Derived => hour (timestamp r)) g ->
            exists r : Derived, r ∈ g /\ hour (timestamp r) = h).
  { intros h Hh. apply list_elem_of_In, in_map_iff in Hh as (r & <- & Hr).
    exists r. split; [by apply list_elem_of_In|reflexivity]. }
  destruct (List.map (fun r : Derived => hour (timestamp r)) g)
    as [|h0 hs] eqn:Hhs; [by destruct g|].
  destruct (Hout _ (foldr_min_elem h0 hs)) as (first & Hfirst & Hlo).
  destruct (Hout _ (foldr_max_elem h0 hs)) as (last & Hlast & Hhi).
  exists first, last. rewrite Hlo, Hhi. repeat split; try assumption.
  - apply foldr_min_le. by apply Hin.
  - apply foldr_max_ge. by apply Hin.
Qed.

(** A node has a trend entry exactly when two of its samples fall in
    different hours, however many samples it has; [data_points] is then the
    number of hours from its first to its last sampled hour. *)
Theorem trend_needs_two_hours (df : list Derived) (n : string) :
  let g := of_node n df in
  (is_Some (generate_time_series_analysis df !! n) <->
   exists r1 r2 : Derived,
     r1 ∈ g /\ r2 ∈ g /\ hour (timestamp r1) <> hour (timestamp r2))
  /\ (forall t, generate_time_series_analysis df !! n = Some t ->
      exists first last : Derived,
        first ∈ g /\ last ∈ g
        /\ (forall r : Derived, r ∈ g ->
              hour (timestamp first) <= hour (timestamp r)
              <= hour (timestamp last))
        /\ Z.of_nat (data_points t)
           = hour (timestamp last) - hour (timestamp first) + 1).
Proof.
  cbv zeta. rewrite trends_lookup, node_buckets_resampled.
  destruct (decide (n ∈ List.map (fun r : Derived => node r) df)) as [Hn|Hn].
  2:{ cbn. split; [split|discriminate].
      - by intros [? ?].
      - intros (r1 & _ & Hr1 & _). exfalso. apply Hn.
        apply elem_of_of_node in Hr1 as [<- Hr1].
        apply list_elem_of_In. apply (in_map (fun r : Derived => node r)).
        by apply list_elem_of_In. }
  assert (Hg : of_node n df <> []).
  { destruct (of_node_last n df Hn) as (r & Hr).
    intros Hnil. by rewrite Hnil in Hr. }
  destruct (bucket_hours_span _ Hg) as (first & last & Hf & Hl & Hspan & Hhours).
  rewrite length_map, Hhours, length_seqZ.
  pose proof (Hspan first Hf) as Hfl.
  destruct (Nat.ltb_spec 1
              (Z.to_nat (hour (timestamp last) - hour (timestamp first) + 1)))
    as [Hlong|Hshort].
  - split.
    + split; [|by eexists]. intros _. exists first, last.
      repeat split; try assumption. lia.
    + intros t [= <-]. exists first, last. repeat split; try assumption.
      * by apply Hspan.
      * by apply Hspan.
      * cbn [data_points trend_of]. rewrite length_map, length_seqZ. lia.
  - split; [|discriminate]. split; [by intros [? ?]|].
    intros (r1 & r2 & Hr1 & Hr2 & Hne). exfalso.
    pose proof (Hspan r1 Hr1). pose proof (Hspan r2 Hr2). lia.
Qed.

(** ** Forecasting: what reaches Prophet and what comes back *)

Lemma list_filter_sublist {A} (f : A -> bool) (l : list A) :
  List.filter f l `sublist_of` l.
Proof.
  induction l as [|x l IH]; cbn [List.filter]; [constructor|].
  destruct (f x); by constructor.
Qed.

Section ForecastRows.
Import UsageForecaster.

Variable sqrt : Q -> Q.
Variable now : string -> Metric -> Z.
Variable Model : Type.
Variable create_prophet_model : option Model.
Variable fit_predict :
  Model -> list (Z * float64) -> nat -> Z -> option (list Prediction).

Local Abbreviation forecast :=
  (forecast_metric sqrt now Model create_prophet_model fit_predict).
Local Abbreviation all :=
  (all_forecasts sqrt now Model create_prophet_model fit_predict).
Local Abbreviation generate :=
  (generate_all_forecasts sqrt now Model create_prophet_model fit_predict).

(** The points handed to Prophet are at least 5 of the node's
    [(timestamp, value)] rows, in their order, none with a missing value. *)
Theorem prepared_points_come_from_the_rows (df : list Sample) (n : string)
  (m : Metric) (data : list (Z * float64)) :
  prepare_prophet_data sqrt df n m = Some data ->
  (5 <= length data)%nat
  /\ data `sublist_of`
       List.map (fun r => (timestamp r, column m r)) (node_rows n df)
  /\ Forall (fun row : Z * float64 => isna row.2 = false) data.
Proof.
  intros Hdata. apply prepare_prophet_data_Some in Hdata as (_ & H5 & ->).
  split; [exact H5|]. split.
  - unfold without_outliers, prophet_rows.
    etrans; apply list_filter_sublist.
  - apply Forall_forall. intros row Hrow%list_elem_of_In.
    unfold without_outliers in Hrow. apply filter_In in Hrow as [Hrow _].
    unfold prophet_rows in Hrow. apply filter_In in Hrow as [_ Hna].
    by apply Bool.negb_true_iff.
Qed.

Lemma forecast_metric_rows (df : list Sample) (n : string) (m : Metric)
  (periods : nat) (freq : Z) (rows : list ForecastRow) :
  forecast df n m periods freq = Some rows ->
  Forall (fun f => f_node f = n /\ f_metric f = m /\ created_at f = now n m)
    rows.
Proof.
  unfold forecast_metric.
  destruct (prepare_prophet_data sqrt df n m) as [data|]; [|discriminate].
  destruct create_prophet_model as [model|]; [|discriminate].
  destruct (fit_predict model data periods freq) as [predictions|];
    [|discriminate].
  intros [= <-]. by apply Forall_map, Forall_forall.
Qed.

Lemma all_forecasts_elem (df : list Sample) (periods : nat) (freq : Z)
  (rows : list ForecastRow) :
  In rows (all df periods freq) <->
  exists n m, n ∈ List.map node df
              /\ forecast df n m periods freq = Some rows.
Proof.
  unfold all_forecasts. rewrite in_flat_map. split.
  - intros (n & Hn & Hrows). apply in_flat_map in Hrows as (m & _ & Hrows).
    exists n, m. split; [by apply elem_of_unique, list_elem_of_In|].
    destruct (forecast df n m periods freq) as [rows'|]; [|destruct Hrows].
    destruct Hrows as [->|[]]. reflexivity.
  - intros (n & m & Hn & Hrows). exists n.
    split; [by apply list_elem_of_In, elem_of_unique|].
    apply in_flat_map. exists m. split.
    + unfold metrics. destruct m; cbn; auto.
    + rewrite Hrows. by left.
Qed.

(** Every row of the combined forecast table belongs to a node of the frame
    that has at least 10 rows, for a metric of it with at least 5 points left
    after the outlier filter, and carries the clock reading of the call that
    forecast its pair. *)
Theorem combined_rows_come_from_qualifying_pairs (df : list Sample)
  (periods : nat) (freq : Z) (combined : list ForecastRow) :
  generate df periods freq = Some combined ->
  Forall (fun f =>
            f_node f ∈ List.map node df
            /\ (10 <= length (node_rows (f_node f) df))%nat
            /\ (5 <= length (without_outliers sqrt
                               (prophet_rows df (f_node f) (f_metric f))))%nat
            /\ created_at f = now (f_node f) (f_metric f))
    combined.
Proof.
  unfold generate_all_forecasts.
  destruct (all df periods freq) as [|rows0 rest] eqn:Hall; [discriminate|].
  intros [= <-]. apply Forall_forall. intros f Hf.
  change (f ∈ concat (rows0 :: rest)) in Hf.
  apply list_elem_of_In, in_concat in Hf as (rows & Hrows & Hf).
  rewrite <- Hall in Hrows.
  apply all_forecasts_elem in Hrows as (n & m & Hn & Hrows).
  pose proof (forecast_metric_rows _ _ _ _ _ _ Hrows) as Hmeta.
  rewrite Forall_forall in Hmeta.
  destruct (Hmeta f) as (-> & -> & Hnow); [by apply list_elem_of_In|].
  apply forecast_metric_prepared in Hrows as (data & Hdata).
  apply prepare_prophet_data_Some in Hdata as (H10 & H5 & _).
  by repeat split.
Qed.

(** The run yields no forecast table exactly when every pair of a node of
    the frame and a metric yields no forecast. *)
Theorem no_forecast_iff_every_pair_fails (df : list Sample) (periods : nat)
  (freq : Z) :
  generate df periods freq = None <->
  forall n m, n ∈ List.map node df -> forecast df n m periods freq = None.
Proof.
  unfold generate_all_forecasts. split.
  - destruct (all df periods freq) as [|rows0 rest] eqn:Hall; [|discriminate].
    intros _ n m Hn.
    destruct (forecast df n m periods freq) as [rows|] eqn:Hrows;
      [|reflexivity].
    assert (Hin : In rows (all df periods freq))
      by (apply all_forecasts_elem; by exists n, m).
    rewrite Hall in Hin. destruct Hin.
  - intros Hnone.
    destruct (all df periods freq) as [|rows0 rest] eqn:Hall; [reflexivity|].
    assert (Hin : In rows0 (all df periods freq)) by (rewrite Hall; by left).
    apply all_forecasts_elem in Hin as (n & m & Hn & Hrows).
    by rewrite (Hnone n m Hn) in Hrows.
Qed.

End ForecastRows.

Lemma prepared_points_come_from_the_rows_witness :
  exists data,
    UsageForecaster.prepare_prophet_data Inputs.sqrt_stub
      (UsageForecaster.load_metrics Inputs.steady_frame) "node-a"
      CpuUtilization = Some data
    /\ (5 <= length data)%nat.
Proof.
  destruct (UsageForecaster.prepare_prophet_data Inputs.sqrt_stub
              (UsageForecaster.load_metrics Inputs.steady_frame) "node-a"
              CpuUtilization) as [data|] eqn:Hdata;
    [|vm_compute in Hdata; discriminate Hdata].
  exists data. split; [reflexivity|].
  exact (proj1 (prepared_points_come_from_the_rows Inputs.sqrt_stub
                  (UsageForecaster.load_metrics Inputs.steady_frame)
                  "node-a" CpuUtilization data Hdata)).
Defined.

Lemma combined_rows_come_from_qualifying_pairs_witness :
  exists combined,
    UsageForecaster.generate_all_forecasts Inputs.sqrt_stub (fun _ _ => 0) unit (Some tt)
      Inputs.echo_predict (UsageForecaster.load_metrics Inputs.steady_frame)
      24 3600 = Some combined
    /\ Forall (fun f => UsageForecaster.created_at f = 0) combined.
Proof.
  destruct (UsageForecaster.generate_all_forecasts Inputs.sqrt_stub (fun _ _ => 0) unit
              (Some tt) Inputs.echo_predict
              (UsageForecaster.load_metrics Inputs.steady_frame) 24 3600)
    as [combined|] eqn:Hrun; [|vm_compute in Hrun; discriminate Hrun].
  exists combined. split; [reflexivity|].
  eapply Forall_impl.
  - exact (combined_rows_come_from_qualifying_pairs Inputs.sqrt_stub (fun _ _ => 0) unit
             (Some tt) Inputs.echo_predict
             (UsageForecaster.load_metrics Inputs.steady_frame) 24 3600
             combined Hrun).
  - intros f (_ & _ & _ & Hnow). exact Hnow.
Defined.

(** ** The outlier filter on a constant series *)

Section ConstantForecastInput.
Import UsageForecaster.

Variable sqrt : Q -> Q.
Hypothesis sqrt_0 : forall q, (q == 0)%Q -> (sqrt q == 0)%Q.
Variable c : Q.

Lemma fin_eq_is_finite (l : list float64) :
  Forall (fin_eq c) l -> Forall (fun x => is_finite x = true) l.
Proof.
  intros Hl. eapply Forall_impl; [exact Hl|]. by intros x (q & -> & _).
Qed.

Lemma mean_constant_nonempty (l : list float64) :
  l <> [] -> Forall (fin_eq c) l -> fin_eq c (Pandas.mean l).
Proof.
  intros Hne Hl.
  pose proof (Accuracy.mean_numbers l Hne (fin_eq_is_finite l Hl)) as Hfin.
  destruct (mean_constant c l Hl) as [Hnan|H]; [|exact H].
  by rewrite Hnan in Hfin.
Qed.

Lemma std_constant_long (l : list float64) :
  (2 <= length l)%nat -> Forall (fin_eq c) l ->
  fin_eq 0 (Pandas.std sqrt l).
Proof.
  intros Hlong Hl.
  destruct (mean_constant_nonempty l) as (y & Hm & Hy);
    [intros ->; cbn in Hlong; lia|exact Hl|].
  unfold Pandas.std. rewrite (dropna_numbers c l Hl).
  assert ((length l <? 2)%nat = false) as -> by (apply Nat.ltb_ge; lia).
  rewrite Hm.
  assert (Hd : fin_eq 0
                 (Pandas.np_sum
                    (List.map (fun x => fmul (fsub x (Fin y)) (fsub x (Fin y)))
                       l))).
  { clear Hm Hlong. induction Hl as [|x l (q & -> & Hq) _ (s & Hs & Hsum)].
    - by exists 0%Q.
    - cbn [List.map Pandas.np_sum foldr].
      fold (Pandas.np_sum
              (List.map (fun x => fmul (fsub x (Fin y)) (fsub x (Fin y))) l)).
      rewrite Hs. eexists. split; [reflexivity|]. rewrite Hq, Hy, Hsum. ring. }
  destruct Hd as (s & -> & Hs).
  assert (Hk : (0 < inject_Z (Z.of_nat (length l - 1)))%Q)
    by (unfold Qlt; cbn; lia).
  set (k := inject_Z (Z.of_nat (length l - 1))) in *.
  unfold Pandas.of_nat, of_Z, fdiv. fold k.
  assert (Qeqb k 0 = false) as -> by (apply Qeqb_neq; lra).
  assert (Hv : (s / k == 0)%Q) by (rewrite Hs; field; lra).
  unfold Pandas.fsqrt.
  assert (Qltb (s / k) 0 = false) as -> by (apply Qltb_ge; lra).
  exists (sqrt (s / k)). split; [reflexivity|by apply sqrt_0].
Qed.

(** A node with at least 10 rows whose metric is constant loses no point to
    the outlier filter: all its rows are handed to Prophet. *)
Theorem constant_series_keeps_every_point (df : list Sample) (n : string)
  (m : Metric) :
  (10 <= length (node_rows n df))%nat ->
  Forall (fin_eq c) (List.map (column m) (node_rows n df)) ->
  prepare_prophet_data sqrt df n m
  = Some (List.map (fun r => (timestamp r, column m r)) (node_rows n df)).
Proof.
  intros H10 Hconst. unfold prepare_prophet_data.
  assert ((length (node_rows n df) <? 10)%nat = false) as ->
    by (apply Nat.ltb_ge; lia).
  set (points := List.map (fun r => (timestamp r, column m r))
                   (node_rows n df)).
  assert (Hsnd : List.map snd points = List.map (column m) (node_rows n df))
    by (unfold points; by rewrite List.map_map).
  assert (Hrows : prophet_rows df n m = points).
  { unfold prophet_rows. fold points.
    apply forallb_filter_id, forallb_forall. intros row Hrow.
    assert (Hy : In row.2 (List.map snd points)) by (by apply in_map).
    rewrite Hsnd in Hy. rewrite Forall_forall in Hconst.
    by destruct (Hconst _ (proj2 (list_elem_of_In _ _) Hy)) as (q & -> & _). }
  rewrite Hrows.
  assert (Hkept : without_outliers sqrt points = points).
  { unfold without_outliers. rewrite Hsnd.
    destruct (mean_constant_nonempty (List.map (column m) (node_rows n df)))
      as (y & -> & Hy);
      [intros Hnil; apply (f_equal length) in Hnil;
       rewrite length_map in Hnil; cbn in Hnil; lia
      |exact Hconst|].
    destruct (std_constant_long (List.map (column m) (node_rows n df)))
      as (s & -> & Hs); [rewrite length_map; lia|exact Hconst|].
    apply forallb_filter_id, forallb_forall. intros row Hrow.
    assert (Hin : In row.2 (List.map snd points)) by (by apply in_map).
    rewrite Hsnd in Hin. rewrite Forall_forall in Hconst.
    destruct (Hconst _ (proj2 (list_elem_of_In _ _) Hin)) as (q & -> & Hq).
    cbn. apply Bool.andb_true_iff. split; apply Qleb_le; lra. }
  rewrite Hkept.
  assert ((length points <? 5)%nat = false) as ->; [|reflexivity].
  apply Nat.ltb_ge. unfold points. rewrite length_map. lia.
Qed.

End ConstantForecastInput.

Lemma constant_series_keeps_every_point_witness :
  length <$> UsageForecaster.prepare_prophet_data Inputs.sqrt_stub
               (UsageForecaster.load_metrics Inputs.steady_frame) "node-a"
               CpuUtilization
  = Some 12%nat.
Proof.
  rewrite (constant_series_keeps_every_point Inputs.sqrt_stub (fun q H => H)
             50 (UsageForecaster.load_metrics Inputs.steady_frame) "node-a"
             CpuUtilization).
  - reflexivity.
  - vm_compute. lia.
  - vm_compute. repeat constructor; eexists; (split; [reflexivity|reflexivity]).
Defined.

(** ** Recommendations: what triggers them *)

Module RecommendationTriggers.
Import UsageForecaster.

Lemma fmax2_above (t : Q) (a b : float64) :
  isna a = false -> isna b = false ->
  flt (Fin t) a = true \/ flt (Fin t) b = true ->
  flt (Fin t) (Pandas.fmax2 a b) = true.
Proof.
  intros Ha Hb. unfold Pandas.fmax2.
  destruct a as [| | |x], b as [| | |y]; try discriminate; cbn;
    try tauto; try (intros [H|H]; (discriminate H || exact H)).
  destruct (Qltb x y) eqn:Hxy; cbn; rewrite !Qltb_lt.
  - apply Qltb_lt in Hxy. intros [H|H]; lra.
  - apply Qltb_ge in Hxy. intros [H|H]; lra.
Qed.

Lemma fmax2_not_missing (a b : float64) :
  isna a = false -> isna b = false -> isna (Pandas.fmax2 a b) = false.
Proof. unfold Pandas.fmax2. by destruct (flt a b). Qed.

Lemma foldl_fmax2_above (t : Q) (v : list float64) (acc : float64) :
  isna acc = false -> Forall (fun x => isna x = false) v ->
  flt (Fin t) acc = true \/ (exists x, x ∈ v /\ flt (Fin t) x = true) ->
  flt (Fin t) (foldl Pandas.fmax2 acc v) = true.
Proof.
  revert acc. induction v as [|y v IH]; intros acc Hacc Hv Habove.
  - destruct Habove as [H|(x & Hx & _)]; [exact H|by apply elem_of_nil in Hx].
  - apply Forall_cons in Hv as [Hy Hv]. cbn [foldl].
    apply IH; [by apply fmax2_not_missing|exact Hv|].
    destruct Habove as [H|(x & Hx & H)].
    + left. apply fmax2_above; auto.
    + apply elem_of_cons in Hx as [->|Hx].
      * left. apply fmax2_above; auto.
      * right. by exists x.
Qed.

(** If a value of the series is above [t], so is [Series.max()]. *)
Lemma max_above (t : Q) (l : list float64) (x : float64) :
  x ∈ l -> flt (Fin t) x = true -> flt (Fin t) (Pandas.max l) = true.
Proof.
  intros Hx Hlt. unfold Pandas.max.
  assert (Hin : x ∈ Pandas.dropna l).
  { apply list_elem_of_In, filter_In.
    split; [by apply list_elem_of_In|by destruct x]. }
  assert (Hall : Forall (fun x => isna x = false) (Pandas.dropna l)).
  { apply Forall_forall. intros y Hy%list_elem_of_In.
    apply filter_In in Hy as [_ Hy]. by apply Bool.negb_true_iff. }
  destruct (Pandas.dropna l) as [|y v]; [by apply elem_of_nil in Hin|].
  apply Forall_cons in Hall as [Hy Hv].
  apply foldl_fmax2_above; [exact Hy|exact Hv|].
  apply elem_of_cons in Hin as [->|Hin]; [by left|right; by exists x].
Qed.

(** One forecast value above 90 in the horizon of a pair is enough for a
    Critical recommendation for the pair, whatever the other values are. *)
Theorem one_value_above_90_is_critical
  (forecasts : option (list ForecastRow)) (current_time : Z) (n : string)
  (m : Metric) (f : ForecastRow) :
  f ∈ horizon forecasts current_time n m ->
  fgt (forecast f) (Fin 90) = true ->
  List.map r_severity
    (emitted_for n m (generate_capacity_recommendations forecasts current_time))
  = [Critical].
Proof.
  intros Hf Hgt. rewrite RecommendationGenerator.emitted_for_pair.
  unfold recommend.
  assert (fgt (Pandas.max
                 (List.map forecast (horizon forecasts current_time n m)))
            (Fin 90) = true) as ->; [|reflexivity].
  apply (max_above 90 _ (forecast f)); [|exact Hgt].
  apply list_elem_of_In, in_map. by apply list_elem_of_In.
Qed.

(** Forecast rows that are not after the current time give no
    recommendation, whatever their values. *)
Theorem past_forecasts_give_no_recommendation (fs : list ForecastRow)
  (current_time : Z) :
  Forall (fun f => f_timestamp f <= current_time) fs ->
  generate_capacity_recommendations (Some fs) current_time = [].
Proof.
  intros Hpast. unfold generate_capacity_recommendations.
  destruct fs as [|f0 fs0]; [reflexivity|].
  rewrite (filter_none (fun f => current_time < f_timestamp f)); [reflexivity|].
  rewrite Forall_forall in Hpast. intros f Hf Hlt.
  specialize (Hpast f Hf). cbn in Hpast. lia.
Qed.


(** Sorting recommendations by severity into the three lists of the report
    and of the dashboard loses none and repeats none. *)
Theorem by_severity_is_a_partition (recs : list Recommendation) :
  let lists := ForecastDashboard.by_severity recs in
  recs ≡ₚ lists.1.1 ++ lists.1.2 ++ lists.2
  /\ (length lists.1.1 + length lists.1.2 + length lists.2 = length recs)%nat.
Proof.
  cbv zeta. unfold ForecastDashboard.by_severity. cbn [fst snd].
  assert (H : recs ≡ₚ
              filter (fun r => r_severity r = Critical) recs
              ++ filter (fun r => r_severity r = High) recs
              ++ filter (fun r => r_severity r = Medium) recs).
  { induction recs as [|r recs IH]; [reflexivity|].
    rewrite !filter_cons.
    destruct (r_severity r) eqn:Hs;
      repeat (destruct (decide _) as [?|?]; try congruence); cbn [app].
    - by constructor.
    - rewrite <- Permutation_middle. by constructor.
    - rewrite app_assoc, <- Permutation_middle, <- app_assoc. by constructor. }
  split; [exact H|].
  apply Permutation_length in H. rewrite !length_app in H. lia.
Qed.

Lemma one_value_above_90_is_critical_witness :
  let forecasts :=
    Some [ mkForecastRow 3600 (Fin 40) (Fin 35) (Fin 45) "node-a"
             MemoryUtilization 0 None;
           mkForecastRow 7200 (Fin 91) (Fin 85) (Fin 97) "node-a"
             MemoryUtilization 0 None ] in
  List.map r_severity
    (emitted_for "node-a" MemoryUtilization
       (generate_capacity_recommendations forecasts 0))
  = [Critical].
Proof.
  intros forecasts.
  apply (one_value_above_90_is_critical forecasts 0 "node-a" MemoryUtilization
           (mkForecastRow 7200 (Fin 91) (Fin 85) (Fin 97) "node-a"
              MemoryUtilization 0 None)).
  - apply list_elem_of_In. vm_compute. right. left. reflexivity.
  - reflexivity.
Defined.

Lemma past_forecasts_give_no_recommendation_witness :
  generate_capacity_recommendations
    (Some [ mkForecastRow 3600 (Fin 99) (Fin 95) (Fin 100) "node-a"
              CpuUtilization 0 None ]) 3600
  = [].
Proof.
  apply past_forecasts_give_no_recommendation.
  repeat constructor. cbn. lia.
Defined.

End RecommendationTriggers.

(** ** Accuracy metrics and the accuracy score *)

Module AccuracyBounds.
Import UsageForecaster.

Lemma np_sum_nonneg_or_inf (l : list float64) :
  Forall nonneg_or_inf l -> nonneg_or_inf (Pandas.np_sum l).
Proof.
  induction 1 as [|x l Hx _ IH].
  - right. exists 0%Q. split; [reflexivity|lra].
  - cbn [Pandas.np_sum foldr]. fold (Pandas.np_sum l).
    destruct Hx as [->|(q & -> & Hq)], IH as [->|(s & -> & Hs)];
      try (by left).
    right. exists (q + s)%Q. split; [reflexivity|lra].
Qed.

Lemma mean_nonneg_or_inf (l : list float64) :
  Forall (fun x => x = NaN \/ nonneg_or_inf x) l ->
  Pandas.mean l = NaN \/ nonneg_or_inf (Pandas.mean l).
Proof.
  intros Hl. unfold Pandas.mean.
  assert (Hd : Forall nonneg_or_inf (Pandas.dropna l)).
  { rewrite Forall_forall in Hl. apply Forall_forall.
    intros x Hx%list_elem_of_In. apply filter_In in Hx as [Hx Hna].
    destruct (Hl x) as [->|H]; [by apply list_elem_of_In|discriminate|exact H]. }
  destruct (Pandas.dropna l) as [|x v]; [by left|]. right.
  destruct (Accuracy.of_nat_positive (length (x :: v))) as (k & -> & Hk);
    [cbn; lia|].
  destruct (np_sum_nonneg_or_inf _ Hd) as [->|(s & -> & Hs)]; unfold fdiv.
  - left. by assert (Qltb k 0 = false) as -> by (apply Qltb_ge; lra).
  - right. assert (Qeqb k 0 = false) as -> by (apply Qeqb_neq; lra).
    eexists. split; [reflexivity|].
    apply Qle_shift_div_l; [exact Hk|lra].
Qed.

(** On historical points that hold numbers, the MAE is a number and it is
    not negative. *)
Theorem mae_is_a_nonnegative_number (hist : list (float64 * float64)) :
  finite_points hist -> hist <> [] ->
  exists q, mae_of hist = Fin q /\ (0 <= q)%Q.
Proof.
  intros Hfin Hne. unfold mae_of.
  set (terms := List.map (fun h : float64 * float64 => fabs (fsub h.1 h.2))
                  hist).
  assert (Hterms : Forall (fun x => exists q, x = Fin q /\ (0 <= q)%Q) terms).
  { apply Forall_map. eapply Forall_impl; [exact Hfin|].
    intros h (y & f & ->). eexists. split; [reflexivity|]. apply Qabs_nonneg. }
  assert (Hnum : is_finite (Pandas.mean terms) = true).
  { apply Accuracy.mean_numbers.
    - unfold terms. by destruct hist.
    - eapply Forall_impl; [exact Hterms|]. by intros x (q & -> & _). }
  destruct (mean_nonneg_or_inf terms) as [Hm|[Hm|(q & Hm & Hq)]].
  - eapply Forall_impl; [exact Hterms|]. intros x H. right. by right.
  - by rewrite Hm in Hnum.
  - by rewrite Hm in Hnum.
  - by exists q.
Qed.

Lemma mae_is_a_nonnegative_number_witness :
  exists q, mae_of Inputs.zero_actual_history = Fin q /\ (0 <= q)%Q.
Proof.
  apply (mae_is_a_nonnegative_number Inputs.zero_actual_history).
  - repeat constructor; eexists _, _; reflexivity.
  - discriminate.
Defined.

Lemma mape_of_cases (hist : list (float64 * float64)) :
  finite_points hist ->
  mape_of hist = NaN \/ nonneg_or_inf (mape_of hist).
Proof.
  intros Hfin. rewrite Accuracy.mape_of_ape.
  destruct (mean_nonneg_or_inf (List.map ape hist)) as [->|[->|(q & -> & Hq)]].
  - apply Forall_map. eapply Forall_impl; [exact Hfin|].
    intros h (y & f & ->).
    destruct (Qeq_dec y 0) as [Hy|Hy].
    + destruct (Qeq_dec f 0) as [Hf|Hf].
      * left. by apply Accuracy.ape_zero_zero.
      * right; left. by apply Accuracy.ape_zero_actual.
    + right; right. rewrite Accuracy.ape_nonzero_actual by exact Hy.
      eexists. split; [reflexivity|]. apply Qabs_nonneg.
  - by left.
  - right; by left.
  - right; right. eexists. split; [reflexivity|]. 
    apply Qmult_le_0_compat; [exact Hq|discriminate].
Qed.

(** The accuracy score the dashboard derives from a reported MAPE is always
    a number between 0 and 100: an infinite or missing MAPE scores 0. *)
Theorem accuracy_score_in_range (hist : list (float64 * float64)) :
  finite_points hist ->
  (exists q, ForecastDashboard.accuracy_score (mape_of hist) = Fin q
             /\ (0 <= q <= 100)%Q)
  /\ (is_finite (mape_of hist) = false ->
      ForecastDashboard.accuracy_score (mape_of hist) = Fin 0).
Proof.
  intros Hfin. unfold ForecastDashboard.accuracy_score.
  destruct (mape_of_cases hist Hfin) as [->|[->|(q & -> & Hq)]].
  - split; [|reflexivity]. exists 0%Q. split; [reflexivity|lra].
  - split; [|reflexivity]. exists 0%Q. split; [reflexivity|lra].
  - split; [|discriminate]. unfold fsub, fneg, fadd, fgt, flt.
    destruct (Qltb 0 (100 + - q)) eqn:Hpos.
    + apply Qltb_lt in Hpos. eexists. split; [reflexivity|lra].
    + exists 0%Q. split; [reflexivity|lra].
Qed.

Lemma accuracy_score_in_range_witness :
  ForecastDashboard.accuracy_score (mape_of Inputs.zero_actual_history)
  = Fin 0.
Proof.
  apply (accuracy_score_in_range Inputs.zero_actual_history).
  - repeat constructor; eexists _, _; reflexivity.
  - reflexivity.
Defined.

End AccuracyBounds.
